(** * api_handler: the websocket API handler of Modules/api_handler.py

    A shallow embedding of [BaseWebsocketAPIHandler] and its two versioned
    subclasses, and the properties of connection lifecycle, frame dispatch
    and request/response correlation that hold of it.

    Python objects become records, the coroutines become functions in a
    state-and-exception monad over a [world] (the handler object, the log,
    the sleep clock, the frames still to arrive and the outputs of uuid4).
    The standard-library codecs the module calls ([json.loads],
    [json.dumps], [UUID(...)], [str(UUID)]) are section variables. *)

From Stdlib Require Import String Ascii ZArith QArith List Bool Lia.
From stdpp Require Import base option list gmap strings pretty.

Set Warnings "-register-all,-clear-no-such-hyp".
Local Open Scope string_scope.
Local Open Scope Z_scope.
Local Open Scope list_scope.

(** ** Values *)

(** What [json.loads] produces and [json.dumps] consumes.  A Python float is
    kept as a rational; a tuple is written as the array it serialises to.
    A dict is an association list in insertion order with unique keys. *)
Inductive json : Type :=
| JNull
| JBool (b : bool)
| JInt (n : Z)
| JFloat (q : Q)
| JStr (s : string)
| JArr (items : list json)
| JObj (members : list (string * json)).

(** Request identifiers are [uuid.UUID] values: 128-bit integers. *)
Definition UUID : Type := N.

(** ** Exceptions *)

(** The module's own exception classes and the built-in ones its statements
    can raise.  One constructor per class; the arguments are what the
    class's [__init__] receives. *)
Inductive exn : Type :=
| APIError (message : string)
| NotConnectedError (message : option string)
| UnauthorizedError (message : option string)
| ForbiddenError (message : option string)
| InternalAPIError (message : option string)
| MismatchedVersionError (handler_ver : string) (api_ver : json)
| TimeoutError (message : string)
| ValueError (message : string)
| KeyError (key : string)
| TypeError
| AttributeError
| RecursionError
| UnicodeDecodeError.

(** [message if message else fallback]: a message that is [None] or empty
    gives way to the class's fallback text. *)
Definition message_or (fallback : string) (message : option string)
  : string :=
  match message with
  | Some m => if String.eqb m "" then fallback else m
  | None => fallback
  end.

(** [str(e)]: the message [Exception.__init__] was handed, for the classes
    of this module.  MismatchedVersionError formats the advertised version
    into its message; that is modelled for a version that is a string. *)
Definition exn_message (e : exn) : option string :=
  match e with
  | APIError m => Some m
  | NotConnectedError m => Some (message_or "Not connected to API" m)
  | UnauthorizedError m =>
      Some (message_or "(401) API token required, but not provided" m)
  | ForbiddenError m => Some (message_or "(403) Insufficient permissions" m)
  | InternalAPIError m =>
      Some (message_or "(500) Internal Server Error in the API" m)
  | MismatchedVersionError handler_ver (JStr api_ver) =>
      Some ("Tried to connect to " +:+ api_ver +:+ " API with "
            +:+ handler_ver +:+ " Handler.")
  | TimeoutError m | ValueError m => Some m
  | _ => None
  end.

(** The class of an exception, by name: what an [except] clause tests. *)
Definition exn_class (e : exn) : string :=
  match e with
  | APIError _ => "APIError"
  | NotConnectedError _ => "NotConnectedError"
  | UnauthorizedError _ => "UnauthorizedError"
  | ForbiddenError _ => "ForbiddenError"
  | InternalAPIError _ => "InternalAPIError"
  | MismatchedVersionError _ _ => "MismatchedVersionError"
  | TimeoutError _ => "TimeoutError"
  | ValueError _ => "ValueError"
  | KeyError _ => "KeyError"
  | TypeError => "TypeError"
  | AttributeError => "AttributeError"
  | RecursionError => "RecursionError"
  | UnicodeDecodeError => "UnicodeDecodeError"
  end.

(** The ways [json.loads] fails on a frame: the text is not JSON
    (json.JSONDecodeError, the one failure the module catches), it is
    nested deeper than the interpreter recurses (RecursionError), it holds
    an integer literal beyond the conversion limit (ValueError), or it is
    a binary frame that is not valid UTF-8 (UnicodeDecodeError). *)
Inductive loads_error : Type :=
| NotJSON
| TooDeep
| IntegerTooLong
| NotUnicode.

(** The exception a failure of [json.loads] lets out when no
    [except json.JSONDecodeError] clause stops it; JSONDecodeError is a
    ValueError. *)
Definition loads_exn (failure : loads_error) : exn :=
  match failure with
  | NotJSON => ValueError "Expecting value"
  | TooDeep => RecursionError
  | IntegerTooLong =>
      ValueError "Exceeds the limit for integer string conversion"
  | NotUnicode => UnicodeDecodeError
  end.

(** ** Python dictionaries and subscripting *)

Module Dict.

Definition t : Type := list (string * json).

Fixpoint get (d : t) (k : string) : option json :=
  match d with
  | [] => None
  | (k', v) :: d' => if String.eqb k' k then Some v else get d' k
  end.

(** [k in d.keys()] *)
Definition mem (d : t) (k : string) : bool :=
  match get d k with Some _ => true | None => false end.

(** [d[k] = v]: overwrite in place, or append a new key. *)
Fixpoint set (d : t) (k : string) (v : json) : t :=
  match d with
  | [] => [(k, v)]
  | (k', v') :: d' =>
      if String.eqb k' k then (k, v) :: d' else (k', v') :: set d' k v
  end.

(** [d.update(other)] *)
Definition update (d other : t) : t :=
  fold_left (fun acc kv => set acc (fst kv) (snd kv)) other d.

End Dict.

(** [v[k]] for a string key [k].  Only a dict can be subscripted by a
    string: a missing key raises KeyError, any other value TypeError. *)
Definition getitem (v : json) (k : string) : exn + json :=
  match v with
  | JObj d =>
      match Dict.get d k with
      | Some x => inr x
      | None => inl (KeyError k)
      end
  | _ => inl TypeError
  end.

(** [v[k] = x] *)
Definition setitem (v : json) (k : string) (x : json) : exn + json :=
  match v with
  | JObj d => inr (JObj (Dict.set d k x))
  | _ => inl TypeError
  end.

(** [v.keys()]: only dicts have the method. *)
Definition keys (v : json) : exn + list string :=
  match v with
  | JObj d => inr (map fst d)
  | _ => inl AttributeError
  end.

(** [v == n] for an integer literal [n].  An int or a float can equal it
    (booleans equal only 0 and 1, which the module never compares with). *)
Definition eq_int (v : json) (n : Z) : bool :=
  match v with
  | JInt m => Z.eqb m n
  | JFloat q => Qeq_bool q (inject_Z n)
  | _ => false
  end.

(** [v != s] for a string [s] *)
Definition ne_str (v : json) (s : string) : bool :=
  match v with
  | JStr s' => negb (String.eqb s' s)
  | _ => true
  end.

(** ** The handler object *)

(** A [websockets.WebSocketClientProtocol], as far as the module looks at
    it: the host it was opened to, the URI, whether it is open, and the
    frames sent over it so far (oldest first). *)
Record connection : Type := Connection {
  host : string;
  uri : string;
  open : bool;
  sent : list string
}.

(** The [asyncio.Task] running [_message_handler]. *)
Inductive task : Type :=
| Running
| Cancelled
| Died (e : exn).

Record handler : Type := Handler {
  _hostname : string;
  _token : option string;
  _tls : bool;
  _connection : option connection;
  _listener_task : option task;
  _waiting_requests : gset UUID;
  _request_responses : gmap UUID json
}.

(** [BaseWebsocketAPIHandler.__init__] *)
Definition init (hostname : string) (token : option string) (tls : bool)
  : handler :=
  {| _hostname := hostname; _token := token; _tls := tls;
     _connection := None; _listener_task := None;
     _waiting_requests := ∅; _request_responses := ∅ |}.

(** The [connected] property:
    [self._connection is not None and self._connection.open] *)
Definition connected (h : handler) : bool :=
  match _connection h with
  | Some c => open c
  | None => false
  end.

(** Whether the dispatch loop is alive: a listener task exists and has
    neither been cancelled nor ended with an exception. *)
Definition listening (h : handler) : bool :=
  match _listener_task h with
  | Some Running => true
  | _ => false
  end.

Definition set_connection (c : option connection) (h : handler) : handler :=
  {| _hostname := _hostname h; _token := _token h; _tls := _tls h;
     _connection := c; _listener_task := _listener_task h;
     _waiting_requests := _waiting_requests h;
     _request_responses := _request_responses h |}.

Definition set_listener_task (t : option task) (h : handler) : handler :=
  {| _hostname := _hostname h; _token := _token h; _tls := _tls h;
     _connection := _connection h; _listener_task := t;
     _waiting_requests := _waiting_requests h;
     _request_responses := _request_responses h |}.

Definition set_hostname (s : string) (h : handler) : handler :=
  {| _hostname := s; _token := _token h; _tls := _tls h;
     _connection := _connection h; _listener_task := _listener_task h;
     _waiting_requests := _waiting_requests h;
     _request_responses := _request_responses h |}.

Definition set_token (s : option string) (h : handler) : handler :=
  {| _hostname := _hostname h; _token := s; _tls := _tls h;
     _connection := _connection h; _listener_task := _listener_task h;
     _waiting_requests := _waiting_requests h;
     _request_responses := _request_responses h |}.

Definition set_tls (b : bool) (h : handler) : handler :=
  {| _hostname := _hostname h; _token := _token h; _tls := b;
     _connection := _connection h; _listener_task := _listener_task h;
     _waiting_requests := _waiting_requests h;
     _request_responses := _request_responses h |}.

Definition set_waiting_requests (s : gset UUID) (h : handler) : handler :=
  {| _hostname := _hostname h; _token := _token h; _tls := _tls h;
     _connection := _connection h; _listener_task := _listener_task h;
     _waiting_requests := s;
     _request_responses := _request_responses h |}.

Definition set_request_responses (m : gmap UUID json) (h : handler)
  : handler :=
  {| _hostname := _hostname h; _token := _token h; _tls := _tls h;
     _connection := _connection h; _listener_task := _listener_task h;
     _waiting_requests := _waiting_requests h;
     _request_responses := m |}.

Definition set_sent (l : list string) (c : connection) : connection :=
  {| host := host c; uri := uri c; open := open c; sent := l |}.

(** ** The world a coroutine runs in *)

(** One entry per [log.error] call site of the module. *)
Inductive log_entry : Type :=
| NoVersionField
| Unparseable (message : string)
| TokenRequired
| NoPermission
| InternalError
| NoRequestId (data : json)
| BadRequestId (value : json)
| Unexpected (request_id : UUID).

(** - [self]: the handler object;
    - [journal]: what was logged, oldest first;
    - [clock]: how many [asyncio.sleep(0.01)] have completed;
    - [incoming]: the frames the server is still to deliver, grouped by the
      sleep of the running coroutine during which they arrive;
    - [entropy]: the values the coming [uuid4()] calls return. *)
Record world : Type := World {
  self : handler;
  journal : list log_entry;
  clock : nat;
  incoming : list (list string);
  entropy : list UUID
}.

Definition set_self (h : handler) (w : world) : world :=
  {| self := h; journal := journal w; clock := clock w;
     incoming := incoming w; entropy := entropy w |}.

(** How a coroutine ends: it returns, it raises, or the model has no
    [uuid4()] output left to hand it. *)
Inductive outcome (A : Type) : Type :=
| Returned (a : A)
| Raised (e : exn)
| Starved.
Arguments Returned {A} a.
Arguments Raised {A} e.
Arguments Starved {A}.

Definition aio (A : Type) : Type := world -> outcome A * world.

Definition aio_ret {A} (a : A) : aio A := fun w => (Returned a, w).

Definition aio_bind {A B} (f : A -> aio B) (c : aio A) : aio B :=
  fun w =>
    match c w with
    | (Returned a, w') => f a w'
    | (Raised e, w') => (Raised e, w')
    | (Starved, w') => (Starved, w')
    end.

#[export] Instance aio_mret : MRet aio := @aio_ret.
#[export] Instance aio_mbind : MBind aio := @aio_bind.

Definition raise {A} (e : exn) : aio A := fun w => (Raised e, w).

(** The model has run out of [uuid4()] outputs. *)
Definition starve {A} : aio A := fun w => (Starved, w).

Definition get_self : aio handler := fun w => (Returned (self w), w).

Definition modify_self (f : handler -> handler) : aio unit :=
  fun w => (Returned tt, set_self (f (self w)) w).

Definition log_error (l : log_entry) : aio unit :=
  fun w => (Returned tt,
            {| self := self w; journal := journal w ++ [l]; clock := clock w;
               incoming := incoming w; entropy := entropy w |}).

(** A statement that either raises or yields a value, run in the monad. *)
Definition try {A} (r : exn + A) : aio A :=
  match r with
  | inl e => raise e
  | inr a => mret a
  end.

Definition and_then {A B} (r : exn + A) (f : A -> exn + B) : exn + B :=
  match r with
  | inl e => inl e
  | inr a => f a
  end.

(** Python truthiness of an optional string argument: [None] and the empty
    string are false. *)
Definition truthy (s : option string) : bool :=
  match s with
  | Some s' => negb (String.eqb s' "")
  | None => false
  end.

(** ** Collaborators of the handler *)

(** What [_send_raw] is handed: text that goes out as it is, or a dict that
    is serialised first. *)
Inductive raw : Type :=
| Text (s : string)
| Payload (data : json).

(** The Rescue object as [update_rescue] uses it: its [case_id] attribute
    ([None] until the API has assigned one) and its [json(full)] method. *)
Record rescue : Type := Rescue {
  case_id : option json;
  rescue_json : bool -> json
}.

(** What a concrete handler class adds to the base class. *)
Record handler_class : Type := HandlerClass {
  api_version : string;
  update_rescue : rescue -> bool -> aio json
}.

(** Unfolds the monad's plumbing. *)
Ltac run :=
  unfold mbind, aio_mbind, aio_bind, mret, aio_mret, aio_ret, raise,
    get_self, modify_self, log_error, try, starve; simpl.

(** ** A sample codec and sample data

    Concrete stand-ins for the codecs, used to run the definitions on
    examples: [json.loads] as a table of the frames the examples use,
    [json.dumps] as a compact serialiser, and the UUID codec on three
    identifiers. *)

Module Sample.

Definition dq : string := String (ascii_of_nat 34) EmptyString.

(** [quoted s] is [s] between double quotes. *)
Definition quoted (s : string) : string := dq +:+ s +:+ dq.

Definition id1_str : string := "00000000-0000-4000-8000-000000000001".
Definition id2_str : string := "00000000-0000-4000-8000-000000000002".
Definition id3_str : string := "00000000-0000-4000-8000-000000000003".

Definition id1 : UUID := 0x00000000000040008000000000000001%N.
Definition id2 : UUID := 0x00000000000040008000000000000002%N.
Definition id3 : UUID := 0x00000000000040008000000000000003%N.

Definition UUID_of_hex (s : string) : option UUID :=
  if String.eqb s id1_str then Some id1
  else if String.eqb s id2_str then Some id2
  else if String.eqb s id3_str then Some id3
  else None.

Definition UUID_str (u : UUID) : string :=
  if N.eqb u id1 then id1_str
  else if N.eqb u id2 then id2_str
  else if N.eqb u id3 then id3_str
  else "ffffffff-ffff-4fff-8fff-ffffffffffff".

(** The hello of a v2.0 server: [{"meta": {"API-Version": "v2.0"}}] *)
Definition hello20_text : string :=
  "{" +:+ quoted "meta" +:+ ": {" +:+ quoted "API-Version" +:+ ": "
  +:+ quoted "v2.0" +:+ "}}".
Definition hello20 : json := JObj [("meta", JObj [("API-Version", JStr "v2.0")])].

(** A hello without a version: [{"meta": {}}] *)
Definition hello_bare_text : string := "{" +:+ quoted "meta" +:+ ": {}}".
Definition hello_bare : json := JObj [("meta", JObj [])].

(** A reply to request [id1]:
    [{"meta": {"request_id": "<id1>"}, "data": {"ok": true}}] *)
Definition reply1_text : string :=
  "{" +:+ quoted "meta" +:+ ": {" +:+ quoted "request_id" +:+ ": "
  +:+ quoted id1_str +:+ "}, " +:+ quoted "data" +:+ ": {" +:+ quoted "ok"
  +:+ ": true}}".
Definition reply1 : json :=
  JObj [("meta", JObj [("request_id", JStr id1_str)]);
        ("data", JObj [("ok", JBool true)])].

(** A reply to request [id2]: [{"meta": {"request_id": "<id2>"}}] *)
Definition reply2_text : string :=
  "{" +:+ quoted "meta" +:+ ": {" +:+ quoted "request_id" +:+ ": "
  +:+ quoted id2_str +:+ "}}".
Definition reply2 : json := JObj [("meta", JObj [("request_id", JStr id2_str)])].

(** An error frame: [{"status": 401}] *)
Definition status401_text : string := "{" +:+ quoted "status" +:+ ": 401}".
Definition status401 : json := JObj [("status", JInt 401)].

(** Valid JSON that is not an object: [[]] *)
Definition array_text : string := "[]".

(** Not JSON at all. *)
Definition garbage_text : string := "<html>".

Definition frames : list (string * json) :=
  [(hello20_text, hello20); (hello_bare_text, hello_bare);
   (reply1_text, reply1); (reply2_text, reply2);
   (status401_text, status401); (array_text, JArr [])].

Definition json_loads (s : string) : loads_error + json :=
  match Dict.get frames s with
  | Some v => inr v
  | None => inl NotJSON
  end.

Fixpoint json_dumps (v : json) : string :=
  match v with
  | JNull => "null"
  | JBool true => "true"
  | JBool false => "false"
  | JInt n => pretty n
  | JFloat q => pretty (Qnum q) +:+ "/" +:+ pretty (Zpos (Qden q))
  | JStr s => quoted s
  | JArr items =>
      "[" +:+ (fix go (l : list json) : string :=
                 match l with
                 | [] => ""
                 | [x] => json_dumps x
                 | x :: l' => json_dumps x +:+ ", " +:+ go l'
                 end) items +:+ "]"
  | JObj members =>
      "{" +:+ (fix go (l : list (string * json)) : string :=
                 match l with
                 | [] => ""
                 | [(k, x)] => quoted k +:+ ": " +:+ json_dumps x
                 | (k, x) :: l' =>
                     quoted k +:+ ": " +:+ json_dumps x +:+ ", " +:+ go l'
                 end) members +:+ "}"
  end.

(** A handler for host "api.example", no token, TLS on. *)
Definition fresh : handler := init "api.example" None true.

Definition world_of (h : handler) (arrivals : list (list string))
    (ids : list UUID) : world :=
  {| self := h; journal := []; clock := O; incoming := arrivals;
     entropy := ids |}.

(** [fresh] after a successful connect. *)
Definition online : handler :=
  set_listener_task (Some Running)
    (set_connection
       (Some {| host := "api.example"; uri := "wss://api.example";
                open := true; sent := [] |}) fresh).

(** [online] with request [id1] sent and awaiting its reply. *)
Definition awaiting : handler := set_waiting_requests {[id1]} online.

(** A rescue with case id 42 and one without. *)
Definition rescue42 : rescue :=
  {| case_id := Some (JInt 42);
     rescue_json := fun full =>
       if full then JObj [("client", JStr "c"); ("system", JStr "s")]
       else JObj [("system", JStr "s")] |}.
Definition rescue_new : rescue :=
  {| case_id := None; rescue_json := fun _ => JObj [] |}.

End Sample.

(** More frames and states, for the further properties. *)

Module MoreSamples.

Import Sample.

(** An error frame that carries the identifier of request [id1]:
    [{"status": 401, "meta": {"request_id": "<id1>"}}] *)
Definition denied1_text : string :=
  "{" +:+ quoted "status" +:+ ": 401, " +:+ quoted "meta" +:+ ": {"
  +:+ quoted "request_id" +:+ ": " +:+ quoted id1_str +:+ "}}".
Definition denied1_members : Dict.t :=
  [("status", JInt 401); ("meta", JObj [("request_id", JStr id1_str)])].

(** A reply to [id1] with a status the loop does not single out:
    [{"status": 404, "meta": {"request_id": "<id1>"}}] *)
Definition missing1_text : string :=
  "{" +:+ quoted "status" +:+ ": 404, " +:+ quoted "meta" +:+ ": {"
  +:+ quoted "request_id" +:+ ": " +:+ quoted id1_str +:+ "}}".
Definition missing1_members : Dict.t :=
  [("status", JInt 404); ("meta", JObj [("request_id", JStr id1_str)])].

(** A second, different reply to [id1]:
    [{"meta": {"request_id": "<id1>"}, "data": {"ok": false}}] *)
Definition reply1_again_text : string :=
  "{" +:+ quoted "meta" +:+ ": {" +:+ quoted "request_id" +:+ ": "
  +:+ quoted id1_str +:+ "}, " +:+ quoted "data" +:+ ": {" +:+ quoted "ok"
  +:+ ": false}}".
Definition reply1_again : json :=
  JObj [("meta", JObj [("request_id", JStr id1_str)]);
        ("data", JObj [("ok", JBool false)])].

(** A frame of brackets nested too deep for [json.loads]. *)
Definition deep_text : string := "[[[[[[[[[[[[[[[[[[[[[[[[[[[[[[[[...".

(** [json.loads] on the frames above and on those of [Sample]. *)
Definition json_loads (s : string) : loads_error + json :=
  if String.eqb s deep_text then inl TooDeep
  else
    match Dict.get [(denied1_text, JObj denied1_members);
                    (missing1_text, JObj missing1_members);
                    (reply1_again_text, reply1_again)] s with
    | Some v => inr v
    | None => Sample.json_loads s
    end.

(** [online] with requests [id1] and [id2] awaiting their replies. *)
Definition awaiting_both : handler :=
  set_waiting_requests ({[id1]} ∪ {[id2]}) online.

(** [fresh] after a connect() that failed on the version check: the socket
    is stored, there is no listener task. *)
Definition half_open : handler :=
  set_connection
    (Some {| host := "api.example"; uri := "wss://api.example";
             open := true; sent := [] |}) fresh.

(** [fresh] with a token. *)
Definition with_token : handler := init "api.example" (Some "s3cret") false.

End MoreSamples.

(** ** BaseWebsocketAPIHandler *)

Section BaseWebsocketAPIHandler.

(** [json.loads] on a frame: the decoded value, or how decoding fails. *)
Variable json_loads : string -> loads_error + json.
(** [json.dumps] *)
Variable json_dumps : json -> string.
(** [UUID(hex)] on a string: [None] stands for ValueError. *)
Variable UUID_of_hex : string -> option UUID.
(** [str(uuid)] *)
Variable UUID_str : UUID -> string.

(** [UUID(v)] on a decoded JSON value.  The constructor raises TypeError
    when handed [None], calls [hex.replace], which only a string has, and
    rejects a string that is not 32 hexadecimal digits with ValueError. *)
Definition UUID_init (v : json) : exn + UUID :=
  match v with
  | JStr s =>
      match UUID_of_hex s with
      | Some u => inr u
      | None => inl (ValueError "badly formed hexadecimal UUID string")
      end
  | JNull => inl TypeError
  | _ => inl AttributeError
  end.

(** *** connect, disconnect, reconnect *)

(** The URI connect() dials. *)
Definition target_uri (h : handler) : string :=
  (if _tls h then "wss://" +:+ _hostname h else "ws://" +:+ _hostname h)
  +:+ (if truthy (_token h) then "/?bearer=" +:+ default "" (_token h)
       else "").

(** [websockets.connect(uri)]: a fresh open connection.  Its [host] is the
    host part of the URI, which is the configured hostname. *)
Definition websockets_connect (h : handler) : connection :=
  {| host := _hostname h; uri := target_uri h; open := true; sent := [] |}.

(** [self._loop.create_task(self._message_handler())] *)
Definition start_listener : aio unit :=
  modify_self (set_listener_task (Some Running)).

(** [connect_message["meta"]["API-Version"]] *)
Definition advertised_version (connect_message : json) : exn + json :=
  and_then (getitem connect_message "meta")
    (fun meta => getitem meta "API-Version").

(** [connect()] for a handler class declaring [api_version]; [hello] is
    the first frame the server sends on the new connection. *)
Definition connect (api_version : string) (hello : string) : aio unit :=
  h ← get_self;
  if connected h then
    raise (NotConnectedError
             (Some ("Already connected to a server: "
                    +:+ from_option host "" (_connection h))))
  else
    modify_self (set_connection (Some (websockets_connect h)));;
    match json_loads hello with
    | inl NotJSON =>
        raise (APIError "Connect message from the API could not be parsed")
    | inl failure => raise (loads_exn failure)
    | inr connect_message =>
        match advertised_version connect_message with
        | inr v =>
            if ne_str v api_version
            then raise (MismatchedVersionError api_version v)
            else start_listener
        | inl (KeyError _) => log_error NoVersionField;; start_listener
        | inl e => raise e
        end
    end.

(** [disconnect()].  [self._listener_task.cancel()] is an attribute
    access on the task: with no task stored it raises AttributeError. *)
Definition disconnect : aio unit :=
  h ← get_self;
  if negb (connected h) then raise (NotConnectedError None)
  else
    match _listener_task h with
    | None => raise AttributeError
    | Some _ =>
        modify_self (set_listener_task None);;
        modify_self (set_connection None)
    end.

(** [reconnect(hostname, token, tls)]; an argument left out is [None]. *)
Definition reconnect (api_version : string)
    (hostname token : option string) (tls : option bool) (hello : string)
  : aio unit :=
  h ← get_self;
  (if connected h then disconnect else mret tt);;
  (if truthy hostname
   then modify_self (set_hostname (default "" hostname)) else mret tt);;
  (if truthy token then modify_self (set_token token) else mret tt);;
  (if default false tls
   then modify_self (set_tls (default false tls)) else mret tt);;
  connect api_version hello.

(** *** The dispatch loop *)

(** The log entry for a status the loop cannot attribute to a request. *)
Definition status_entry (status : json) : option log_entry :=
  if eq_int status 401 then Some TokenRequired
  else if eq_int status 403 then Some NoPermission
  else if eq_int status 500 then Some InternalError
  else None.

(** [UUID(data["meta"]["request_id"])] *)
Definition request_id_of (data : json) : exn + UUID :=
  and_then (getitem data "meta")
    (fun meta => and_then (getitem meta "request_id") UUID_init).

(** Filing a reply: [self._request_responses[request_id] = data] then
    [self._waiting_requests.remove(request_id)]. *)
Definition file (request_id : UUID) (data : json) (h : handler) : handler :=
  set_waiting_requests (_waiting_requests h ∖ {[request_id]})
    (set_request_responses (<[request_id := data]> (_request_responses h))
       h).

(** The part of the loop body after the status checks. *)
Definition route (data : json) : aio unit :=
  match request_id_of data with
  | inl (KeyError _) => log_error (NoRequestId data)
  | inl (ValueError _) =>
      log_error (BadRequestId
                   (match and_then (getitem data "meta")
                            (fun meta => getitem meta "request_id") with
                    | inr v => v
                    | inl _ => JNull
                    end))
  | inl e => raise e
  | inr request_id =>
      h ← get_self;
      if decide (request_id ∈ _waiting_requests h)
      then modify_self (file request_id data)
      else log_error (Unexpected request_id)
  end.

(** The status checks at the head of the loop body: the entry to log when
    [data] has a "status" key equal to 401, 403 or 500. *)
Definition status_check (data : json) : exn + option log_entry :=
  and_then (keys data) (fun ks =>
    if existsb (String.eqb "status") ks
    then and_then (getitem data "status") (fun status =>
           inr (status_entry status))
    else inr None).

(** One iteration of [_message_handler]'s [while True], on the frame
    [recv()] returned.  [continue] is a normal return. *)
Definition handle_frame (message : string) : aio unit :=
  match json_loads message with
  | inl NotJSON => log_error (Unparseable message)
  | inl failure => raise (loads_exn failure)
  | inr data =>
      unattributable ← try (status_check data);
      match unattributable with
      | Some entry => log_error entry
      | None => route data
      end
  end.

(** [_message_handler()] over the frames that arrive: it returns when they
    are used up (the task is suspended in [recv()]) and raises when an
    iteration lets an exception out of the loop. *)
Fixpoint _message_handler (frames : list string) : aio unit :=
  match frames with
  | [] => mret tt
  | message :: rest => handle_frame message;; _message_handler rest
  end.

(** [await asyncio.sleep(0.01)]: the caller is suspended for one tick and
    the listener task, when it is alive, handles the frames that arrive
    meanwhile.  An exception that leaves the loop ends the task. *)
Definition sleep : aio unit := fun w =>
  let w1 := {| self := self w; journal := journal w; clock := S (clock w);
               incoming := tail (incoming w); entropy := entropy w |} in
  if listening (self w1) then
    match _message_handler (hd [] (incoming w)) w1 with
    | (Raised e, w2) =>
        (Returned tt, set_self (set_listener_task (Some (Died e)) (self w2)) w2)
    | (_, w2) => (Returned tt, w2)
    end
  else (Returned tt, w1).

(** *** The call engine *)

(** [self._connection.send(frame)] *)
Definition send (frame : string) (h : handler) : handler :=
  set_connection
    (option_map (fun c => set_sent (sent c ++ [frame]) c) (_connection h)) h.

(** [_send_raw(data)] *)
Definition _send_raw (data : raw) : aio unit :=
  h ← get_self;
  if negb (connected h) then raise (NotConnectedError None)
  else
    match data with
    | Text s => modify_self (send s)
    | Payload d => modify_self (send (json_dumps d))
    end.

(** [uuid4()]: the next random identifier. *)
Definition uuid4 : aio UUID := fun w =>
  match entropy w with
  | [] => starve w
  | u :: rest =>
      (Returned u,
       {| self := self w; journal := journal w; clock := clock w;
          incoming := incoming w; entropy := rest |})
  end.

(** The loop test of [_request]:
    [request_id in self._waiting_requests or
     request_id in self._request_responses.keys()] *)
Definition taken (h : handler) (request_id : UUID) : bool :=
  bool_decide (request_id ∈ _waiting_requests h)
  || bool_decide (request_id ∈ dom (_request_responses h)).

(** The [while] loop of [_request], entered with the first draw; [fuel]
    bounds the number of redraws. *)
Fixpoint redraw (fuel : nat) (request_id : UUID) : aio UUID :=
  h ← get_self;
  if taken h request_id then
    match fuel with
    | O => starve
    | S fuel' => u ← uuid4; redraw fuel' u
    end
  else mret request_id.

(** The first two statements of [_request]: draw until unused.  There can
    be no more redraws than there are outputs left. *)
Definition mint : aio UUID := fun w =>
  (request_id ← uuid4; redraw (length (entropy w)) request_id) w.

(** Stamping the identifier into the envelope:
    [data["meta"]["request_id"] = s] when [data] has a "meta" key,
    [data["meta"] = {"request_id": s}] otherwise. *)
Definition stamp (data : json) (s : string) : exn + json :=
  and_then (keys data) (fun ks =>
    if existsb (String.eqb "meta") ks then
      and_then (getitem data "meta") (fun meta =>
      and_then (setitem meta "request_id" (JStr s)) (fun meta' =>
      setitem data "meta" meta'))
    else setitem data "meta" (JObj [("request_id", JStr s)])).

(** The default of [_retrieve_response]'s [max_wait]. *)
Definition default_max_wait : Z := 600.

(** The [for i in range(n)] loop of [_retrieve_response]; the result says
    whether the [else] clause runs, that is, the range was used up without
    a [break]. *)
Fixpoint poll (request_id : UUID) (n : nat) : aio bool :=
  match n with
  | O => mret true
  | S n' =>
      h ← get_self;
      if decide (request_id ∈ _waiting_requests h)
      then sleep;; poll request_id n'
      else mret false
  end.

(** [_retrieve_response(request_id, max_wait)] *)
Definition _retrieve_response (request_id : UUID) (max_wait : Z) : aio json :=
  h ← get_self;
  if negb (bool_decide (request_id ∈ _waiting_requests h))
     && negb (bool_decide (request_id ∈ dom (_request_responses h)))
  then raise (APIError ("Response " +:+ UUID_str request_id
                        +:+ " already consumed or request never queued"))
  else
    exhausted ← poll request_id (Z.to_nat max_wait);
    if (exhausted : bool) then
      raise (TimeoutError ("API took too long to respond to request "
                           +:+ UUID_str request_id))
    else
      h' ← get_self;
      match _request_responses h' !! request_id with
      | None =>
          raise (APIError ("Response " +:+ UUID_str request_id
                           +:+ " already consumed by something else"))
      | Some response =>
          modify_self
            (set_request_responses (delete request_id (_request_responses h')));;
          mret response
      end.

(** [_request(data)] *)
Definition _request (data : json) : aio json :=
  request_id ← mint;
  data' ← try (stamp data (UUID_str request_id));
  _send_raw (Payload data');;
  modify_self (fun h =>
    set_waiting_requests (_waiting_requests h ∪ {[request_id]}) h);;
  _retrieve_response request_id default_max_wait.

(** [call(endpoint, action, params, meta)]; an argument left out is
    [None].  [params["meta"].update(meta)] needs [params["meta"]] to be a
    dict and raises AttributeError otherwise. *)
Definition call (endpoint action : string) (params meta : option Dict.t)
  : aio json :=
  let params0 := default [] params in
  let meta0 := default [] meta in
  params1 ← (if Dict.mem params0 "meta" then
               match Dict.get params0 "meta" with
               | Some (JObj m) =>
                   mret (Dict.set params0 "meta" (JObj (Dict.update m meta0)))
               | _ => raise AttributeError
               end
             else mret (Dict.set params0 "meta" (JObj meta0)));
  _request (JObj (Dict.set params1 "action"
                    (JArr [JStr endpoint; JStr action]))).

(** ** Versioned handlers *)

(** [WebsocketAPIHandler20.update_rescue] *)
Definition update_rescue20 (r : rescue) (full : bool) : aio json :=
  match case_id r with
  | None => raise (ValueError "Cannot send rescue without ID to the API")
  | Some i =>
      call "rescues" "update"
        (Some [("id", i); ("data", rescue_json r full)]) None
  end.

Definition WebsocketAPIHandler20 : handler_class :=
  {| api_version := "v2.0"; update_rescue := update_rescue20 |}.

(** [class WebsocketAPIHandler21(WebsocketAPIHandler20)]: only
    [api_version] is overridden, [update_rescue] is inherited. *)
Definition WebsocketAPIHandler21 : handler_class :=
  {| api_version := "v2.1";
     update_rescue := update_rescue WebsocketAPIHandler20 |}.

(** *** Notions the properties are stated with *)

(** The invariant of the data model: the dispatch loop runs exactly when
    the handler is connected. *)
Definition loop_iff_connected (h : handler) : Prop :=
  listening h = connected h.

(** The statement that the error of a connect() on a connected handler and
    the error of a disconnect() on a disconnected one belong to different
    exception classes. *)
Definition lifecycle_errors_distinct : Prop :=
  forall api_version hello w1 w2 e1 e2 w1' w2',
    connected (self w1) = true ->
    connected (self w2) = false ->
    connect api_version hello w1 = (Raised e1, w1') ->
    disconnect w2 = (Raised e2, w2') ->
    exn_class e1 <> exn_class e2.

(** What reconnect() does to the stored parameters: an override is taken
    only when it is truthy. *)
Definition apply_overrides (hostname token : option string)
    (tls : option bool) (h : handler) : handler :=
  let h1 := if truthy hostname then set_hostname (default "" hostname) h
            else h in
  let h2 := if truthy token then set_token token h1 else h1 in
  if default false tls then set_tls (default false tls) h2 else h2.

(** Everything of a world but the two tables, the log and the listener
    task's state. *)
Definition outside (w : world) :=
  (_hostname (self w), _token (self w), _tls (self w), _connection (self w),
   clock w, incoming w, entropy w).

(** No frame of [frames] carries the request identifier [request_id]. *)
Definition quiet_for (request_id : UUID) (frames : list string) : Prop :=
  forall f data,
    f ∈ frames ->
    json_loads f = inr data ->
    request_id_of data <> inr request_id.

(** The envelope [update_rescue] builds, stamped with [s]. *)
Definition update_envelope (i data : json) (s : string) : json :=
  JObj [("id", i); ("data", data);
        ("meta", JObj [("request_id", JStr s)]);
        ("action", JArr [JStr "rescues"; JStr "update"])].

(** The envelope [call] sends when [params] has no "meta" key: [params]
    with the caller's [meta] under "meta", the action pair under "action",
    and the identifier's text [s] stamped into the meta block. *)
Definition envelope_of (endpoint action : string) (params meta : Dict.t)
    (s : string) : Dict.t :=
  Dict.set
    (Dict.set (Dict.set params "meta" (JObj meta)) "action"
       (JArr [JStr endpoint; JStr action]))
    "meta" (JObj (Dict.set meta "request_id" (JStr s))).

(** The frame [_send_raw] puts on the wire for [data]. *)
Definition frame_of (data : raw) : string :=
  match data with
  | Text s => s
  | Payload d => json_dumps d
  end.

(** Frames of the shapes the dispatch loop is written for: an object whose
    "meta", when present, is an object whose "request_id", when present,
    is a string. *)
Definition well_shaped (data : json) : bool :=
  match data with
  | JObj d =>
      match Dict.get d "meta" with
      | None => true
      | Some (JObj m) =>
          match Dict.get m "request_id" with
          | None | Some (JStr _) => true
          | Some _ => false
          end
      | Some _ => false
      end
  | _ => false
  end.

(** Frames an iteration of the loop gets through: [json.loads] decodes
    them to a well-shaped value, or fails with the one exception the loop
    catches. *)
Definition survives (message : string) : bool :=
  match json_loads message with
  | inl NotJSON => true
  | inl _ => false
  | inr data => well_shaped data
  end.

(** Frames that neither answer the request [request_id] nor end the
    loop. *)
Definition undisturbed (request_id : UUID) (frames : list string) : Prop :=
  quiet_for request_id frames /\ forall f, f ∈ frames -> survives f = true.

(** The reply [data] to [request_id] arrives as [message] while the
    listener is alive and the request pending: [waited] are the batches
    of the ticks before, [pre] and [post] the frames that share the
    reply's batch, and nothing before the reply disturbs. *)
Definition reply_arrives (request_id : UUID) (message : string) (data : json)
    (waited : list (list string)) (pre post : list string)
    (rest : list (list string)) (w : world) : Prop :=
  listening (self w) = true
  /\ incoming w = waited ++ (pre ++ message :: post) :: rest
  /\ undisturbed request_id (concat waited)
  /\ undisturbed request_id pre
  /\ json_loads message = inr data
  /\ status_check data = inr None
  /\ request_id_of data = inr request_id.


Arguments advertised_version : simpl never.
Arguments websockets_connect : simpl never.
Arguments request_id_of : simpl never.
Arguments status_check : simpl never.
Arguments taken : simpl never.
Arguments stamp : simpl never.


(** * Properties *)

(** ** Connection lifecycle *)

(** A hello with a version other than the declared one makes connect()
    raise after the socket has been stored and before the listener task is
    created. *)
Lemma connect_mismatch api_version hello connect_message actual w :
  connected (self w) = false ->
  json_loads hello = inr connect_message ->
  advertised_version connect_message = inr (JStr actual) ->
  actual <> api_version ->
  connect api_version hello w
  = (Raised (MismatchedVersionError api_version (JStr actual)),
     set_self (set_connection (Some (websockets_connect (self w))) (self w))
       w).
Proof.
  intros Hc Hl Hv Hne. unfold connect. run. rewrite Hc, Hl, Hv. simpl.
  destruct (String.eqb_spec actual api_version); [contradiction | reflexivity].
Qed.

(** A hello that lacks the version field is logged and accepted. *)
Lemma connect_no_version api_version hello connect_message k w :
  connected (self w) = false ->
  json_loads hello = inr connect_message ->
  advertised_version connect_message = inl (KeyError k) ->
  connect api_version hello w
  = (Returned tt,
     {| self := set_listener_task (Some Running)
                  (set_connection (Some (websockets_connect (self w)))
                     (self w));
        journal := journal w ++ [NoVersionField]; clock := clock w;
        incoming := incoming w; entropy := entropy w |}).
Proof.
  intros Hc Hl Hv. unfold connect, start_listener. run.
  rewrite Hc, Hl, Hv. reflexivity.
Qed.

(** A hello with the declared version starts the listener. *)
Lemma connect_match api_version hello connect_message w :
  connected (self w) = false ->
  json_loads hello = inr connect_message ->
  advertised_version connect_message = inr (JStr api_version) ->
  connect api_version hello w
  = (Returned tt,
     set_self (set_listener_task (Some Running)
                 (set_connection (Some (websockets_connect (self w)))
                    (self w))) w).
Proof.
  intros Hc Hl Hv. unfold connect, start_listener. run.
  rewrite Hc, Hl, Hv. simpl. rewrite String.eqb_refl. reflexivity.
Qed.

(** C1. When connect() receives a parseable hello whose metadata carries a
    version string different from the handler's declared one, it raises
    MismatchedVersionError(declared, actual) and the listener task is left
    as it was: no dispatch loop is started.  When the version field is
    absent (the lookup raises KeyError), connect() only logs that, returns
    normally and has started the dispatch loop. *)
Theorem connect_version_check api_version hello connect_message w :
  connected (self w) = false ->
  json_loads hello = inr connect_message ->
  (forall actual,
      advertised_version connect_message = inr (JStr actual) ->
      actual <> api_version ->
      exists w',
        connect api_version hello w
        = (Raised (MismatchedVersionError api_version (JStr actual)), w')
        /\ _listener_task (self w') = _listener_task (self w)
        /\ journal w' = journal w)
  /\ (forall k,
      advertised_version connect_message = inl (KeyError k) ->
      exists w',
        connect api_version hello w = (Returned tt, w')
        /\ listening (self w') = true
        /\ connected (self w') = true
        /\ journal w' = journal w ++ [NoVersionField]).
Proof.
  intros Hc Hl. split.
  - intros actual Hv Hne. eexists. split.
    + exact (connect_mismatch _ _ _ _ _ Hc Hl Hv Hne).
    + split; reflexivity.
  - intros k Hv. eexists. split.
    + exact (connect_no_version _ _ _ _ _ Hc Hl Hv).
    + repeat split; reflexivity.
Qed.

(** Operations that complete keep the invariant: a connect() that returns
    leaves the handler connected with a running listener. *)
Lemma connect_returns_invariant api_version hello w w' :
  connect api_version hello w = (Returned tt, w') ->
  connected (self w') = true /\ listening (self w') = true.
Proof.
  unfold connect, start_listener. run.
  destruct (connected (self w)) eqn:Hc; [discriminate |].
  destruct (json_loads hello) as [[] | cm]; try discriminate.
  destruct (advertised_version cm) as [[] | v]; try discriminate.
  - intros [= <-]. split; reflexivity.
  - destruct (ne_str v api_version); [discriminate |].
    intros [= <-]. split; reflexivity.
Qed.

(** A disconnect() that returns leaves the handler disconnected with no
    listener. *)
Lemma disconnect_returns_invariant w w' :
  disconnect w = (Returned tt, w') ->
  connected (self w') = false /\ listening (self w') = false.
Proof.
  unfold disconnect. run.
  destruct (connected (self w)); simpl; [| discriminate].
  destruct (_listener_task (self w)); [| discriminate].
  intros [= <-]. split; reflexivity.
Qed.

(** C2. A connect() that fails on the version check leaves the handler in a
    state that breaks the invariant: the socket it opened stays stored and
    open, so the handler counts as connected, while no dispatch loop runs.
    In that state disconnect() cannot clean up: with no task stored it
    raises AttributeError and changes nothing. *)
Theorem failed_connect_breaks_invariant
    api_version hello connect_message actual w :
  connected (self w) = false ->
  _listener_task (self w) = None ->
  json_loads hello = inr connect_message ->
  advertised_version connect_message = inr (JStr actual) ->
  actual <> api_version ->
  loop_iff_connected (self w)
  /\ exists w',
      connect api_version hello w
      = (Raised (MismatchedVersionError api_version (JStr actual)), w')
      /\ connected (self w') = true
      /\ listening (self w') = false
      /\ ~ loop_iff_connected (self w')
      /\ disconnect w' = (Raised AttributeError, w').
Proof.
  intros Hc Ht Hl Hv Hne. split.
  - unfold loop_iff_connected, listening. rewrite Hc, Ht. reflexivity.
  - eexists. split; [exact (connect_mismatch _ _ _ _ _ Hc Hl Hv Hne) |].
    unfold loop_iff_connected, listening, connected, disconnect. run.
    rewrite Ht. repeat split; try reflexivity. discriminate.
Qed.

(** The same happens when the hello cannot be parsed. *)
Lemma unparseable_hello_breaks_invariant api_version hello w :
  connected (self w) = false ->
  _listener_task (self w) = None ->
  json_loads hello = inl NotJSON ->
  exists w',
    connect api_version hello w
    = (Raised (APIError "Connect message from the API could not be parsed"),
       w')
    /\ connected (self w') = true /\ listening (self w') = false.
Proof.
  intros Hc Ht Hl. eexists. split.
  - unfold connect. run. rewrite Hc, Hl. reflexivity.
  - unfold listening. simpl. rewrite Ht. split; reflexivity.
Qed.

(** C6 (as the code has it). On a handler that is already connected,
    connect() raises NotConnectedError with the message "Already connected
    to a server: <host>" and leaves the whole world, hence the existing
    connection and the dispatch loop, unchanged.  The class is the one
    disconnect() raises on a handler that is not connected; only the
    message differs. *)
Theorem connect_when_connected api_version hello w :
  connected (self w) = true ->
  (exists c,
      _connection (self w) = Some c
      /\ connect api_version hello w
         = (Raised (NotConnectedError
                      (Some ("Already connected to a server: " +:+ host c))),
            w))
  /\ (forall w2,
        connected (self w2) = false ->
        disconnect w2 = (Raised (NotConnectedError None), w2)).
Proof.
  intros Hc. split.
  - unfold connected in Hc.
    destruct (_connection (self w)) as [c |] eqn:Hconn; [| discriminate].
    exists c. split; [reflexivity |].
    unfold connect. run. unfold connected. rewrite Hconn, Hc. reflexivity.
  - intros w2 Hd. unfold disconnect. run. rewrite Hd. reflexivity.
Qed.

(** reconnect() on a disconnected handler: the overrides, then connect(). *)
Lemma reconnect_disconnected api_version hostname token tls hello w :
  connected (self w) = false ->
  reconnect api_version hostname token tls hello w
  = connect api_version hello
      (set_self (apply_overrides hostname token tls (self w)) w).
Proof.
  intros Hc. unfold reconnect, apply_overrides. run. rewrite Hc.
  destruct w as [h j c i e]; simpl.
  destruct (truthy hostname), (truthy token), (default false tls);
    reflexivity.
Qed.

(** reconnect() on a connected handler with its listener task: the
    connection and the task are dropped first. *)
Lemma reconnect_connected api_version hostname token tls hello w t :
  connected (self w) = true ->
  _listener_task (self w) = Some t ->
  reconnect api_version hostname token tls hello w
  = connect api_version hello
      (set_self
         (apply_overrides hostname token tls
            (set_connection None (set_listener_task None (self w)))) w).
Proof.
  intros Hc Ht. destruct w as [h j c i e]; simpl in *.
  unfold reconnect, disconnect, apply_overrides. run.
  rewrite Hc. simpl. rewrite Hc. simpl. rewrite Ht.
  destruct (truthy hostname), (truthy token), (default false tls);
    reflexivity.
Qed.

(** Overrides that are truthy (a non-empty hostname, a non-empty token,
    tls=True) replace the stored values; parameters left out stay. *)
Lemma apply_overrides_truthy hostname token h :
  hostname <> "" -> token <> "" ->
  let h' := apply_overrides (Some hostname) (Some token) (Some true) h in
  _hostname h' = hostname /\ _token h' = Some token /\ _tls h' = true.
Proof.
  intros Hh Ht. unfold apply_overrides, truthy. simpl.
  destruct (String.eqb_spec hostname ""); [contradiction |].
  destruct (String.eqb_spec token ""); [contradiction |].
  simpl. repeat split.
Qed.

Lemma apply_overrides_none h : apply_overrides None None None h = h.
Proof. reflexivity. Qed.

(** C7. reconnect(tls=False), and likewise reconnect(token="") and
    reconnect(hostname=""), does not replace the stored value: the tests
    [if tls:], [if token:], [if hostname:] are false for these arguments.
    A handler with TLS on that is asked to reconnect with tls=False still
    has TLS on afterwards and dials a wss:// URI with its old hostname and
    token. *)
Theorem reconnect_ignores_falsy_overrides api_version hello w :
  connected (self w) = false ->
  _tls (self w) = true ->
  let w' := snd (reconnect api_version (Some "") (Some "")
                   (Some false) hello w) in
  _tls (self w') = true
  /\ _token (self w') = _token (self w)
  /\ _hostname (self w') = _hostname (self w)
  /\ exists c,
      _connection (self w') = Some c
      /\ uri c = target_uri (self w)
      /\ exists rest, uri c = "wss://" +:+ rest.
Proof.
  intros Hc Htls w'. subst w'.
  rewrite (reconnect_disconnected _ _ _ _ _ _ Hc).
  change (apply_overrides (Some "") (Some "") (Some false) (self w))
    with (self w).
  assert (Hw : set_self (self w) w = w) by (destruct w; reflexivity).
  rewrite Hw. unfold connect, start_listener. run. rewrite Hc.
  assert (Huri : exists rest,
             uri (websockets_connect (self w)) = "wss://" +:+ rest).
  { unfold websockets_connect, target_uri. simpl. rewrite Htls.
    eexists. reflexivity. }
  destruct (json_loads hello) as [[] | cm]; simpl;
    try (repeat split; try assumption; eexists; repeat split; assumption).
  destruct (advertised_version cm) as [[] | v]; simpl;
    try (repeat split; try assumption; eexists; repeat split; assumption).
  destruct (ne_str v api_version); simpl;
    repeat split; try assumption; eexists; repeat split; assumption.
Qed.


(** ** Dispatch and correlation *)

(** The Pending Set and the Response Table of a world. *)
Local Abbreviation pending w := (_waiting_requests (self w)).
Local Abbreviation responses w := (_request_responses (self w)).

(** *** One frame *)

(** An iteration of the dispatch loop either leaves the handler object as
    it is (it logs, or lets an exception out), or files the decoded frame
    under the pending identifier it carries. *)
Lemma handle_frame_cases message w :
  (exists o j,
      handle_frame message w
      = (o, {| self := self w; journal := j; clock := clock w;
               incoming := incoming w; entropy := entropy w |}))
  \/ (exists data request_id,
        json_loads message = inr data
        /\ status_check data = inr None
        /\ request_id_of data = inr request_id
        /\ request_id ∈ pending w
        /\ handle_frame message w
           = (Returned tt, set_self (file request_id data (self w)) w)).
Proof.
  unfold handle_frame.
  destruct (json_loads message) as [failure | data] eqn:Hl.
  { left. destruct failure; run; eauto.
    all: eexists (Raised _), (journal w); destruct w; reflexivity. }
  run. destruct (status_check data) as [e | [entry |]] eqn:Hs.
  - left. exists (Raised e), (journal w). destruct w; reflexivity.
  - left. eauto.
  - unfold route. destruct (request_id_of data) as [e | request_id] eqn:Hr.
    + left. destruct e; run;
        try (eexists; eexists; reflexivity);
        (eexists (Raised _), (journal w); destruct w; reflexivity).
    + run. destruct (decide (request_id ∈ pending w)) as [Hin | Hout].
      * right. exists data, request_id. auto.
      * left. eauto.
Qed.

(** A frame that carries a pending identifier and no 401/403/500 status is
    filed under it. *)
Lemma handle_frame_files message data request_id w :
  json_loads message = inr data ->
  status_check data = inr None ->
  request_id_of data = inr request_id ->
  request_id ∈ pending w ->
  handle_frame message w
  = (Returned tt, set_self (file request_id data (self w)) w).
Proof.
  intros Hl Hs Hr Hin. unfold handle_frame, route. rewrite Hl. run.
  rewrite Hs, Hr. run.
  destruct (decide (request_id ∈ pending w)); [reflexivity | contradiction].
Qed.

(** A property of the two tables that every filing a frame can cause
    preserves is preserved by the iteration; nothing outside the tables
    changes. *)
Lemma handle_frame_tables
    (P : gset UUID -> gmap UUID json -> Prop) message w :
  P (pending w) (responses w) ->
  (forall data request_id,
      json_loads message = inr data ->
      request_id_of data = inr request_id ->
      request_id ∈ pending w ->
      P (pending w ∖ {[request_id]}) (<[request_id := data]> (responses w))) ->
  let w' := snd (handle_frame message w) in
  P (pending w') (responses w')
  /\ outside w' = outside w
  /\ _listener_task (self w') = _listener_task (self w).
Proof.
  intros HP Hstep.
  destruct (handle_frame_cases message w)
    as [(o & j & ->) | (data & request_id & Hl & _ & Hr & Hin & ->)]; simpl.
  - auto.
  - repeat split. exact (Hstep _ _ Hl Hr Hin).
Qed.

(** *** A batch of frames, and a sleep *)

Lemma message_handler_tables
    (P : gset UUID -> gmap UUID json -> Prop) frames w :
  P (pending w) (responses w) ->
  (forall Wx Rx f data request_id,
      f ∈ frames ->
      json_loads f = inr data ->
      request_id_of data = inr request_id ->
      request_id ∈ Wx ->
      P Wx Rx ->
      P (Wx ∖ {[request_id]}) (<[request_id := data]> Rx)) ->
  let w' := snd (_message_handler frames w) in
  P (pending w') (responses w')
  /\ outside w' = outside w
  /\ _listener_task (self w') = _listener_task (self w).
Proof.
  revert w. induction frames as [| f rest IH]; intros w HP Hstep; simpl.
  - auto.
  - assert (H1 := handle_frame_tables P f w HP).
    destruct H1 as (HP1 & Ho1 & Ht1).
    { intros data request_id Hl Hr Hin.
      apply (Hstep _ _ f data); auto. left. }
    unfold mbind, aio_mbind, aio_bind.
    destruct (handle_frame f w) as [[[] | e |] w1] eqn:Hf; simpl in *; auto.
    destruct (IH w1 HP1) as (HP2 & Ho2 & Ht2).
    { intros Wx Rx f' data request_id Hin. apply Hstep. now right. }
    repeat split; [assumption | congruence | congruence].
Qed.

(** A sleep always completes, advances the clock by one tick and uses up
    the batch of frames that arrives during it. *)
Lemma sleep_tables (P : gset UUID -> gmap UUID json -> Prop) w :
  P (pending w) (responses w) ->
  (forall Wx Rx f data request_id,
      f ∈ hd [] (incoming w) ->
      json_loads f = inr data ->
      request_id_of data = inr request_id ->
      request_id ∈ Wx ->
      P Wx Rx ->
      P (Wx ∖ {[request_id]}) (<[request_id := data]> Rx)) ->
  exists w',
    sleep w = (Returned tt, w')
    /\ P (pending w') (responses w')
    /\ clock w' = S (clock w)
    /\ incoming w' = tail (incoming w)
    /\ entropy w' = entropy w
    /\ _connection (self w') = _connection (self w).
Proof.
  intros HP Hstep. unfold sleep. simpl.
  destruct (listening (self w)).
  2: { eexists. split; [reflexivity |]. simpl. auto. }
  match goal with
  | |- context [_message_handler ?fs ?w1] =>
      destruct (message_handler_tables P fs w1 HP Hstep) as (HP' & Ho & _);
      destruct (_message_handler fs w1) as [[[] | e |] w2]
  end; simpl in *;
    (eexists; split; [reflexivity |]); simpl;
    unfold outside in Ho; simpl in Ho; inversion Ho; auto.
Qed.

(** *** Waiting for a reply *)




(** The polling loop on a request that has left the Pending Set: it breaks
    at once, provided the range is not empty. *)
Lemma poll_answered request_id n w :
  request_id ∉ pending w ->
  poll request_id (S n) w = (Returned false, w).
Proof.
  intros Hout. simpl. run.
  destruct (decide (request_id ∈ pending w)); [contradiction | reflexivity].
Qed.

(** With an empty range the [else] clause runs whatever the tables hold. *)
Lemma poll_empty_range request_id w :
  poll request_id 0 w = (Returned true, w).
Proof. reflexivity. Qed.

(** An identifier in neither table: [_retrieve_response] raises before it
    waits. *)
Lemma retrieve_unknown request_id max_wait w :
  request_id ∉ pending w ->
  request_id ∉ dom (responses w) ->
  _retrieve_response request_id max_wait w
  = (Raised (APIError ("Response " +:+ UUID_str request_id
                       +:+ " already consumed or request never queued")),
     w).
Proof.
  intros H1 H2. unfold _retrieve_response. run.
  rewrite !bool_decide_eq_false_2 by assumption. reflexivity.
Qed.

(** A filed reply is popped and returned without waiting, for any positive
    wait budget. *)
Lemma retrieve_filed request_id max_wait data w :
  0 < max_wait ->
  request_id ∉ pending w ->
  responses w !! request_id = Some data ->
  _retrieve_response request_id max_wait w
  = (Returned data,
     set_self (set_request_responses (delete request_id (responses w))
                 (self w)) w).
Proof.
  intros Hpos Hout Hr. unfold _retrieve_response. run.
  assert (Hdom : request_id ∈ dom (responses w))
    by (apply elem_of_dom; eauto).
  rewrite (bool_decide_eq_true_2 _ Hdom), andb_false_r.
  destruct (Z.to_nat max_wait) as [| n] eqn:Hn; [lia |].
  rewrite (poll_answered _ n _ Hout). simpl. rewrite Hr. reflexivity.
Qed.


(** Once a reply is filed and its identifier has left the Pending Set, no
    frame the dispatch loop handles later touches the entry. *)
Lemma message_handler_keeps_filed request_id data frames w :
  request_id ∉ pending w ->
  responses w !! request_id = Some data ->
  let w' := snd (_message_handler frames w) in
  (request_id ∉ pending w') /\ responses w' !! request_id = Some data.
Proof.
  intros Hout Hr.
  destruct (message_handler_tables
              (fun Wx Rx => (request_id ∉ Wx) /\ Rx !! request_id = Some data)
              frames w) as (HP & _); auto.
  intros Wx Rx f data' id' _ _ _ Hin [HW HR].
  assert (id' <> request_id) by (intros ->; contradiction).
  split; [set_solver | by rewrite lookup_insert_ne].
Qed.

(** With [max_wait = 0] the loop body never runs: the call ends in
    TimeoutError even when the reply is already filed. *)
Lemma retrieve_empty_budget request_id data w :
  request_id ∉ pending w ->
  responses w !! request_id = Some data ->
  _retrieve_response request_id 0 w
  = (Raised (TimeoutError ("API took too long to respond to request "
                           +:+ UUID_str request_id)), w).
Proof.
  intros Hout Hr. unfold _retrieve_response. run.
  assert (Hdom : request_id ∈ dom (responses w))
    by (apply elem_of_dom; eauto).
  rewrite (bool_decide_eq_true_2 _ Hdom), andb_false_r. reflexivity.
Qed.

(** *** What the dispatch loop contains and what it lets out *)

(** A frame that is not JSON is logged and skipped. *)
Lemma handle_frame_unparseable message w :
  json_loads message = inl NotJSON ->
  handle_frame message w = log_error (Unparseable message) w.
Proof. intros Hl. unfold handle_frame. rewrite Hl. reflexivity. Qed.

(** So is a frame with a 401, 403 or 500 status. *)
Lemma handle_frame_status message data entry w :
  json_loads message = inr data ->
  status_check data = inr (Some entry) ->
  handle_frame message w = log_error entry w.
Proof.
  intros Hl Hs. unfold handle_frame. rewrite Hl. run. rewrite Hs. reflexivity.
Qed.

(** So is an object without [meta] or without [meta.request_id]. *)
Lemma handle_frame_no_request_id message data k w :
  json_loads message = inr data ->
  status_check data = inr None ->
  request_id_of data = inl (KeyError k) ->
  handle_frame message w = log_error (NoRequestId data) w.
Proof.
  intros Hl Hs Hr. unfold handle_frame, route. rewrite Hl. run.
  rewrite Hs, Hr. reflexivity.
Qed.

(** So is one whose request id is a string that is not a UUID. *)
Lemma handle_frame_bad_request_id message data m w :
  json_loads message = inr data ->
  status_check data = inr None ->
  request_id_of data = inl (ValueError m) ->
  exists v, handle_frame message w = log_error (BadRequestId v) w.
Proof.
  intros Hl Hs Hr. unfold handle_frame, route. rewrite Hl. run.
  rewrite Hs, Hr. eexists. reflexivity.
Qed.

(** And a reply for an identifier that is not pending. *)
Lemma handle_frame_unexpected message data request_id w :
  json_loads message = inr data ->
  status_check data = inr None ->
  request_id_of data = inr request_id ->
  request_id ∉ pending w ->
  handle_frame message w = log_error (Unexpected request_id) w.
Proof.
  intros Hl Hs Hr Hout. unfold handle_frame, route. rewrite Hl. run.
  rewrite Hs, Hr. run.
  destruct (decide (request_id ∈ pending w)); [contradiction | reflexivity].
Qed.

(** A TypeError or AttributeError raised while the request id is looked up
    (a [meta] that is not an object, a request id that is not a string) is
    caught by neither [except] clause and leaves the iteration. *)
Lemma handle_frame_lets_out message data e w :
  json_loads message = inr data ->
  status_check data = inr None ->
  request_id_of data = inl e ->
  e = TypeError \/ e = AttributeError ->
  handle_frame message w = (Raised e, w).
Proof.
  intros Hl Hs Hr He. unfold handle_frame, route. rewrite Hl. run.
  rewrite Hs, Hr. destruct He as [-> | ->]; reflexivity.
Qed.

(** With no live listener task a sleep only moves the clock: the frames
    that arrive are never read. *)
Lemma sleep_without_listener w :
  listening (self w) = false ->
  sleep w
  = (Returned tt,
     {| self := self w; journal := journal w; clock := S (clock w);
        incoming := tail (incoming w); entropy := entropy w |}).
Proof. intros Hl. unfold sleep. simpl. rewrite Hl. reflexivity. Qed.

(** C3. A frame that is valid JSON but not an object (an array, a number,
    a string, a boolean, null) is not contained: [data.keys()] raises
    AttributeError, which no [except] clause of the loop catches.  The
    exception leaves [_message_handler], the listener task ends with it,
    and the frames that follow in the same batch are never handled:
    nothing is filed and nothing is logged. *)
Theorem non_object_frame_ends_dispatch_loop message data rest more w :
  json_loads message = inr data ->
  (forall members, data <> JObj members) ->
  listening (self w) = true ->
  incoming w = (message :: rest) :: more ->
  handle_frame message w = (Raised AttributeError, w)
  /\ _message_handler (message :: rest) w = (Raised AttributeError, w)
  /\ exists w',
      sleep w = (Returned tt, w')
      /\ _listener_task (self w') = Some (Died AttributeError)
      /\ listening (self w') = false
      /\ pending w' = pending w
      /\ responses w' = responses w
      /\ journal w' = journal w.
Proof.
  intros Hl Hobj Hlive Hinc.
  assert (Hs : status_check data = inl AttributeError).
  { unfold status_check. destruct data; try reflexivity.
    exfalso. eapply Hobj. reflexivity. }
  assert (Hf : forall w0, handle_frame message w0 = (Raised AttributeError, w0)).
  { intros w0. unfold handle_frame. rewrite Hl. run. rewrite Hs. reflexivity. }
  assert (Hm : forall w0,
             _message_handler (message :: rest) w0 = (Raised AttributeError, w0)).
  { intros w0. simpl. unfold mbind, aio_mbind, aio_bind. rewrite Hf.
    reflexivity. }
  split; [apply Hf |]. split; [apply Hm |].
  eexists. split.
  - unfold sleep. simpl. rewrite Hlive, Hinc. simpl hd. rewrite Hm. reflexivity.
  - simpl. repeat split.
Qed.

(** *** Minting a request identifier *)

Lemma taken_false h request_id :
  taken h request_id = false <->
  (request_id ∉ _waiting_requests h)
  /\ (request_id ∉ dom (_request_responses h)).
Proof.
  unfold taken. rewrite orb_false_iff, !bool_decide_eq_false. reflexivity.
Qed.

(** Whatever the redraw loop returns is unused, and the loop only consumes
    [uuid4()] outputs. *)
Lemma redraw_returns_unused fuel : forall u w request_id w',
  redraw fuel u w = (Returned request_id, w') ->
  self w' = self w /\ taken (self w) request_id = false.
Proof.
  induction fuel as [| fuel IH]; intros u w request_id w'; simpl; run;
    destruct (taken (self w) u) eqn:Ht.
  - discriminate.
  - intros [= <- <-]. auto.
  - unfold uuid4. destruct (entropy w) as [| u1 rest]; [discriminate |].
    intros H. apply IH in H. exact H.
  - intros [= <- <-]. auto.
Qed.

(** The loop returns as soon as a draw is unused: it ends when the outputs
    still to come contain an unused identifier. *)
Lemma redraw_finds_unused fuel : forall u w,
  (length (entropy w) <= fuel)%nat ->
  taken (self w) u = false
  \/ (exists u', u' ∈ entropy w /\ taken (self w) u' = false) ->
  exists request_id w', redraw fuel u w = (Returned request_id, w').
Proof.
  induction fuel as [| fuel IH]; intros u w Hlen Hex; simpl; run;
    destruct (taken (self w) u) eqn:Ht; eauto.
  - destruct Hex as [? | (u' & Hin & _)]; [discriminate |].
    destruct (entropy w); [inversion Hin | simpl in Hlen; lia].
  - destruct Hex as [? | (u' & Hin & Hu')]; [discriminate |].
    unfold uuid4. destruct (entropy w) as [| u1 rest] eqn:He;
      [inversion Hin |].
    apply IH; simpl in *; [lia |].
    apply elem_of_cons in Hin as [-> | Hin]; eauto.
Qed.

Lemma get_set_eq d k v : Dict.get (Dict.set d k v) k = Some v.
Proof.
  induction d as [| [k' v'] d IH]; simpl.
  - by rewrite String.eqb_refl.
  - destruct (String.eqb k' k) eqn:Hk; simpl.
    + by rewrite String.eqb_refl.
    + by rewrite Hk.
Qed.

(** Stamping writes the identifier's text at [meta.request_id]. *)
Lemma stamp_request_id data s data' :
  stamp data s = inr data' ->
  and_then (getitem data' "meta") (fun meta => getitem meta "request_id")
  = inr (JStr s).
Proof.
  unfold stamp. destruct data as [| | | | | | d]; try discriminate.
  cbn [keys and_then].
  destruct (existsb (String.eqb "meta") (map fst d));
    cbn [getitem setitem and_then].
  - destruct (Dict.get d "meta") as [[| | | | | | m] |]; try discriminate.
    cbn [getitem setitem and_then]. intros [= <-].
    cbn [getitem and_then]. rewrite get_set_eq.
    cbn [getitem and_then]. by rewrite get_set_eq.
  - intros [= <-]. cbn [getitem and_then]. rewrite get_set_eq.
    reflexivity.
Qed.

(** What [_request] does once an identifier is minted and stamped, on a
    connected handler: the envelope is sent, the identifier joins the
    Pending Set, and the reply is awaited with the default budget. *)
Lemma request_after_mint data data' request_id w w1 :
  mint w = (Returned request_id, w1) ->
  stamp data (UUID_str request_id) = inr data' ->
  connected (self w1) = true ->
  _request data w
  = _retrieve_response request_id default_max_wait
      (set_self
         (set_waiting_requests
            (_waiting_requests (self w1) ∪ {[request_id]})
            (send (json_dumps data') (self w1))) w1).
Proof.
  intros Hm Hs Hc. unfold _request.
  unfold mbind at 1, aio_mbind, aio_bind. rewrite Hm.
  unfold mbind at 1, aio_mbind, aio_bind. rewrite Hs. simpl.
  unfold _send_raw. run. rewrite Hc. reflexivity.
Qed.

(** C9. The identifier [_request] mints is in neither the Pending Set nor
    the Response Table, both taken as they are when it is stamped into the
    envelope (minting does not change the handler, and nothing runs between
    minting and stamping); the stamped envelope carries its text at
    [meta.request_id].  The loop does return an identifier when the
    [uuid4()] outputs to come contain an unused one. *)
Theorem minted_request_id_is_unused data w :
  (forall request_id w1,
      mint w = (Returned request_id, w1) ->
      self w1 = self w
      /\ (request_id ∉ pending w1)
      /\ (request_id ∉ dom (responses w1))
      /\ forall data',
          stamp data (UUID_str request_id) = inr data' ->
          and_then (getitem data' "meta")
            (fun meta => getitem meta "request_id")
          = inr (JStr (UUID_str request_id)))
  /\ ((exists u, u ∈ entropy w /\ taken (self w) u = false) ->
      exists request_id w1, mint w = (Returned request_id, w1)).
Proof.
  split.
  - intros request_id w1. unfold mint, uuid4. run.
    destruct (entropy w) as [| u rest]; [discriminate |].
    intros H. apply redraw_returns_unused in H. simpl in H.
    destruct H as [Hself Ht]. apply taken_false in Ht as [H1 H2].
    rewrite Hself. repeat split; try assumption.
    intros data'. apply stamp_request_id.
  - intros (u & Hin & Hu). unfold mint, uuid4. run.
    destruct (entropy w) as [| u1 rest] eqn:He; [inversion Hin |].
    apply redraw_finds_unused; simpl; [lia |].
    apply elem_of_cons in Hin as [-> | Hin]; eauto.
Qed.

(** *** A call that is answered *)

(** A sleep during which the reply to a pending request arrives, with the
    listener alive: the reply is filed. *)
Lemma sleep_files_reply request_id message data batches w :
  request_id ∈ pending w ->
  listening (self w) = true ->
  incoming w = [message] :: batches ->
  json_loads message = inr data ->
  status_check data = inr None ->
  request_id_of data = inr request_id ->
  sleep w
  = (Returned tt,
     {| self := file request_id data (self w); journal := journal w;
        clock := S (clock w); incoming := batches; entropy := entropy w |}).
Proof.
  clear json_dumps UUID_str.
  intros Hin Hlive Hinc Hl Hs Hr.
  unfold sleep. cbn [self]. rewrite Hlive, Hinc. cbn [hd tail].
  cbn [_message_handler]. unfold mbind, aio_mbind, aio_bind.
  rewrite (handle_frame_files _ _ _ _ Hl Hs Hr) by exact Hin.
  reflexivity.
Qed.

(** The reply arrives during the first sleep of the polling loop: the
    second iteration breaks. *)
Lemma poll_catches_reply request_id message data batches n w :
  request_id ∈ pending w ->
  listening (self w) = true ->
  incoming w = [message] :: batches ->
  json_loads message = inr data ->
  status_check data = inr None ->
  request_id_of data = inr request_id ->
  poll request_id (S (S n)) w
  = (Returned false,
     {| self := file request_id data (self w); journal := journal w;
        clock := S (clock w); incoming := batches; entropy := entropy w |}).
Proof.
  clear json_dumps UUID_str.
  intros Hin Hlive Hinc Hl Hs Hr.
  cbn [poll]. unfold mbind at 1, aio_mbind, aio_bind, get_self.
  destruct (decide (request_id ∈ pending w)); [| contradiction].
  unfold mbind at 1, aio_mbind, aio_bind.
  rewrite (sleep_files_reply _ _ _ _ _ Hin Hlive Hinc Hl Hs Hr).
  apply poll_answered. simpl. set_solver.
Qed.

(** The tables are looked at before each sleep only.  A reply filed during
    the last tick of the budget is not picked up: the call ends in
    TimeoutError with the identifier out of the Pending Set and the reply
    left in the Response Table. *)
Lemma retrieve_reply_in_last_tick request_id message data batches w :
  request_id ∈ pending w ->
  listening (self w) = true ->
  incoming w = [message] :: batches ->
  json_loads message = inr data ->
  status_check data = inr None ->
  request_id_of data = inr request_id ->
  exists w',
    _retrieve_response request_id 1 w
    = (Raised (TimeoutError ("API took too long to respond to request "
                             +:+ UUID_str request_id)), w')
    /\ (request_id ∉ pending w')
    /\ responses w' !! request_id = Some data.
Proof.
  clear json_dumps.
  intros Hin Hlive Hinc Hl Hs Hr. eexists. split.
  - unfold _retrieve_response.
    unfold mbind at 1, aio_mbind, aio_bind, get_self. cbn [fst snd].
    rewrite (bool_decide_eq_true_2 _ Hin). cbn [negb andb].
    unfold mbind at 1, aio_mbind, aio_bind.
    change (Z.to_nat 1) with 1%nat. cbn [poll].
    unfold mbind at 1, aio_mbind, aio_bind, get_self.
    destruct (decide (request_id ∈ pending w)); [| contradiction].
    unfold mbind at 1, aio_mbind, aio_bind.
    rewrite (sleep_files_reply _ _ _ _ _ Hin Hlive Hinc Hl Hs Hr).
    reflexivity.
  - simpl. split; [set_solver | apply lookup_insert_eq].
Qed.

(** [_request] on a connected handler whose listener is alive, when the
    first [uuid4()] output is unused and the server's reply carrying it
    arrives during the first tick of the wait: the envelope goes out
    stamped, and the decoded reply is returned as it was filed. *)
Lemma request_answered
    data data' request_id ids message reply batches w :
  connected (self w) = true ->
  listening (self w) = true ->
  entropy w = request_id :: ids ->
  taken (self w) request_id = false ->
  stamp data (UUID_str request_id) = inr data' ->
  incoming w = [message] :: batches ->
  json_loads message = inr reply ->
  status_check reply = inr None ->
  request_id_of reply = inr request_id ->
  exists w',
    _request data w = (Returned reply, w')
    /\ option_map sent (_connection (self w'))
       = option_map (fun c => sent c ++ [json_dumps data'])
           (_connection (self w))
    /\ pending w' = pending w ∖ {[request_id]}
    /\ responses w' = responses w
    /\ clock w' = S (clock w).
Proof.
  intros Hc Hlive He Ht Hst Hinc Hl Hs Hr.
  pose (w1 := {| self := self w; journal := journal w; clock := clock w;
                 incoming := incoming w; entropy := ids |}).
  assert (Hm : mint w = (Returned request_id, w1)).
  { unfold mint, uuid4. unfold mbind, aio_mbind, aio_bind. rewrite He.
    cbn [length redraw]. unfold mbind, aio_mbind, aio_bind, get_self.
    cbn [self]. rewrite Ht. reflexivity. }
  rewrite (request_after_mint _ _ _ _ _ Hm Hst Hc).
  apply taken_false in Ht as [HW HR].
  match goal with |- context [_retrieve_response _ _ ?x] => set (w2 := x) end.
  assert (Hin2 : request_id ∈ pending w2) by (simpl; set_solver).
  assert (Hlive2 : listening (self w2) = true) by exact Hlive.
  assert (Hinc2 : incoming w2 = [message] :: batches) by exact Hinc.
  unfold _retrieve_response.
  unfold mbind at 1, aio_mbind, aio_bind, get_self. cbn [fst snd].
  rewrite (bool_decide_eq_true_2 _ Hin2). cbn [negb andb].
  unfold mbind at 1, aio_mbind, aio_bind.
  change (Z.to_nat default_max_wait) with (S (S 598)).
  rewrite (poll_catches_reply _ _ _ _ 598 _ Hin2 Hlive2 Hinc2 Hl Hs Hr).
  run. rewrite lookup_insert_eq. eexists. split; [reflexivity |]. simpl.
  unfold connected in Hc. destruct (_connection (self w)); [| discriminate].
  simpl. repeat split.
  - set_solver.
  - rewrite delete_insert_eq. apply delete_id.
    by apply not_elem_of_dom.
Qed.

(** [call("rescues", "update", {"id": i, "data": d})] hands [_request] the
    parameters with an empty [meta] and the action pair added. *)
Lemma call_update i d w :
  call "rescues" "update" (Some [("id", i); ("data", d)]) None w
  = _request (JObj [("id", i); ("data", d); ("meta", JObj []);
                    ("action", JArr [JStr "rescues"; JStr "update"])]) w.
Proof. reflexivity. Qed.

Lemma stamp_update i d s :
  stamp (JObj [("id", i); ("data", d); ("meta", JObj []);
               ("action", JArr [JStr "rescues"; JStr "update"])]) s
  = inr (update_envelope i d s).
Proof. reflexivity. Qed.

(** C8. [update_rescue] on a rescue whose [case_id] is None raises
    ValueError and leaves the world as it was: no frame is sent.  On a
    rescue with a case id it is the call
    [call("rescues", "update", {"id": case_id, "data": rescue.json(full)})]
    and nothing else, so what the call returns is returned as it is; when
    the server's reply to the request arrives, [update_rescue] has sent the
    stamped envelope and returns the decoded reply unchanged.  The v2.1
    handler has the v2.0 handler's [update_rescue]; the two classes differ
    in [api_version] only. *)
Theorem update_rescue_contract (r : rescue) (full : bool) w :
  (case_id r = None ->
   update_rescue WebsocketAPIHandler20 r full w
   = (Raised (ValueError "Cannot send rescue without ID to the API"), w))
  /\ (forall i,
        case_id r = Some i ->
        update_rescue WebsocketAPIHandler20 r full w
        = call "rescues" "update"
            (Some [("id", i); ("data", rescue_json r full)]) None w)
  /\ (forall i request_id ids message reply batches,
        case_id r = Some i ->
        connected (self w) = true ->
        listening (self w) = true ->
        entropy w = request_id :: ids ->
        taken (self w) request_id = false ->
        incoming w = [message] :: batches ->
        json_loads message = inr reply ->
        status_check reply = inr None ->
        request_id_of reply = inr request_id ->
        exists w',
          update_rescue WebsocketAPIHandler20 r full w = (Returned reply, w')
          /\ option_map sent (_connection (self w'))
             = option_map
                 (fun c =>
                    sent c
                    ++ [json_dumps
                          (update_envelope i (rescue_json r full)
                             (UUID_str request_id))])
                 (_connection (self w)))
  /\ update_rescue WebsocketAPIHandler21 r full w
     = update_rescue WebsocketAPIHandler20 r full w
  /\ api_version WebsocketAPIHandler20 = "v2.0"
  /\ api_version WebsocketAPIHandler21 = "v2.1".
Proof.
  split; [| split; [| split; [| repeat split]]].
  - intros Hid. simpl. unfold update_rescue20. rewrite Hid. reflexivity.
  - intros i Hid. simpl. unfold update_rescue20. rewrite Hid. reflexivity.
  - intros i request_id ids message reply batches
      Hid Hc Hlive He Ht Hinc Hl Hs Hr.
    simpl. unfold update_rescue20. rewrite Hid, call_update.
    destruct (request_answered _ _ _ _ _ _ _ _ Hc Hlive He Ht
                (stamp_update i (rescue_json r full) (UUID_str request_id))
                Hinc Hl Hs Hr)
      as (w' & Hreq & Hsent & _).
    exists w'. split; assumption.
Qed.

(** * Further properties *)

(** ** The dispatch loop, frame by frame *)

Lemma has_key_mem d k : existsb (String.eqb k) (map fst d) = Dict.mem d k.
Proof.
  unfold Dict.mem. induction d as [| [k' v] d IH]; simpl; [reflexivity |].
  rewrite (String.eqb_sym k k'). destruct (String.eqb k' k); [reflexivity |].
  exact IH.
Qed.

(** On an object the status checks never raise: the entry, if any, is the
    one of the value stored under "status". *)
Lemma status_check_object d :
  status_check (JObj d)
  = inr (match Dict.get d "status" with
         | Some status => status_entry status
         | None => None
         end).
Proof.
  unfold status_check. cbn [keys and_then]. rewrite has_key_mem.
  unfold Dict.mem. cbn [getitem].
  destruct (Dict.get d "status"); reflexivity.
Qed.

(** The exceptions the lookup of the request id can raise. *)
Lemma request_id_of_raises data e :
  request_id_of data = inl e ->
  (exists k, e = KeyError k) \/ (exists m, e = ValueError m)
  \/ e = TypeError \/ e = AttributeError.
Proof.
  unfold request_id_of.
  destruct (getitem data "meta") as [e1 | meta] eqn:H1; cbn [and_then].
  - intros [= <-]. destruct data; try (injection H1 as <-; auto).
    cbn [getitem] in H1. destruct (Dict.get members "meta"); [discriminate |].
    injection H1 as <-. eauto.
  - destruct (getitem meta "request_id") as [e2 | v] eqn:H2; cbn [and_then].
    + intros [= <-]. destruct meta; try (injection H2 as <-; auto).
      cbn [getitem] in H2.
      destruct (Dict.get members "request_id"); [discriminate |].
      injection H2 as <-. eauto.
    + unfold UUID_init. destruct v; try (intros [= <-]; auto).
      destruct (UUID_of_hex s); [discriminate |]. intros [= <-]. eauto.
Qed.

(** X1. Every iteration of the dispatch loop ends in one of four ways: it
    logs exactly one entry and changes nothing else; or [json.loads] fails
    with something other than JSONDecodeError, which leaves the loop with
    nothing changed; or the frame decodes and a TypeError or an
    AttributeError leaves the loop, again with nothing changed; or the
    decoded frame is filed under a pending identifier without logging. *)
Theorem handle_frame_outcomes message w :
  (exists entry, handle_frame message w = log_error entry w)
  \/ (exists failure,
        json_loads message = inl failure
        /\ failure <> NotJSON
        /\ handle_frame message w = (Raised (loads_exn failure), w))
  \/ (exists data e,
        json_loads message = inr data
        /\ (e = TypeError \/ e = AttributeError)
        /\ handle_frame message w = (Raised e, w))
  \/ (exists data request_id,
        json_loads message = inr data
        /\ request_id_of data = inr request_id
        /\ request_id ∈ pending w
        /\ handle_frame message w
           = (Returned tt, set_self (file request_id data (self w)) w)).
Proof.
  unfold handle_frame.
  destruct (json_loads message) as [failure | data] eqn:Hl.
  { destruct failure; [left; eauto | right; left ..];
      (eexists; split; [reflexivity | split; [discriminate | reflexivity]]). }
  run. destruct (status_check data) as [e | [entry |]] eqn:Hs.
  - right. right. left. exists data, e. split; [reflexivity |].
    split; [| reflexivity].
    destruct data; try (injection Hs as <-; auto).
    rewrite status_check_object in Hs. discriminate.
  - left. eauto.
  - unfold route. destruct (request_id_of data) as [e | request_id] eqn:Hr.
    + destruct (request_id_of_raises _ _ Hr)
        as [[k ->] | [[m ->] | [-> | ->]]].
      * left. eauto.
      * left. eauto.
      * right. right. left. exists data, TypeError. auto.
      * right. right. left. exists data, AttributeError. auto.
    + run. destruct (decide (request_id ∈ pending w)) as [Hin | Hout].
      * right. right. right. exists data, request_id. auto.
      * left. eauto.
Qed.

(** X2. The dispatch loop neither invents nor loses request identifiers:
    over any frames, the identifiers held by the Pending Set and the
    Response Table together stay the same, the Pending Set only shrinks and
    the Response Table only grows; tables that share no identifier still
    share none afterwards. *)
Theorem dispatch_conserves_identifiers frames w :
  let w' := snd (_message_handler frames w) in
  pending w' ∪ dom (responses w') = pending w ∪ dom (responses w)
  /\ pending w' ⊆ pending w
  /\ dom (responses w) ⊆ dom (responses w')
  /\ (pending w ## dom (responses w) -> pending w' ## dom (responses w')).
Proof.
  clear json_dumps UUID_str.
  destruct (message_handler_tables
              (fun Wx Rx =>
                 Wx ∪ dom Rx = pending w ∪ dom (responses w)
                 /\ Wx ⊆ pending w
                 /\ dom (responses w) ⊆ dom Rx
                 /\ (pending w ## dom (responses w) -> Wx ## dom Rx))
              frames w) as (HP & _).
  - repeat split; auto.
  - intros Wx Rx f data id' _ _ _ Hin (H1 & H2 & H3 & H4).
    rewrite dom_insert_L. repeat split.
    + rewrite <- H1. apply set_eq. intros x.
      destruct (decide (x = id')) as [-> | Hne]; set_solver.
    + set_solver.
    + set_solver.
    + intros Hd. specialize (H4 Hd). set_solver.
  - exact HP.
Qed.

(** X3. A frame with a top-level status equal to 401, 403 or 500 is only
    logged, also when it carries the identifier of a pending request: the
    handler object is left as it was, so the request stays pending and
    nothing is filed for it. *)
Theorem error_status_is_never_attributed message d status w :
  json_loads message = inr (JObj d) ->
  Dict.get d "status" = Some status ->
  eq_int status 401 || eq_int status 403 || eq_int status 500 = true ->
  exists entry,
    (entry = TokenRequired \/ entry = NoPermission \/ entry = InternalError)
    /\ handle_frame message w
       = (Returned tt,
          {| self := self w; journal := journal w ++ [entry];
             clock := clock w; incoming := incoming w;
             entropy := entropy w |}).
Proof.
  intros Hl Hg Hst.
  assert (Hs : exists entry,
             status_entry status = Some entry
             /\ (entry = TokenRequired \/ entry = NoPermission
                 \/ entry = InternalError)).
  { unfold status_entry.
    destruct (eq_int status 401); [eauto |].
    destruct (eq_int status 403); [eauto |].
    destruct (eq_int status 500); [eauto | discriminate]. }
  destruct Hs as (entry & He & Hcases). exists entry. split; [exact Hcases |].
  rewrite (handle_frame_status message (JObj d) entry w Hl); [reflexivity |].
  rewrite status_check_object, Hg. by rewrite He.
Qed.

(** X4. Any other status does not stop a frame from being routed: an
    object with, say, status 404 that carries a pending identifier is filed
    as that request's reply like a frame without a status. *)
Theorem other_status_is_filed message d status request_id w :
  json_loads message = inr (JObj d) ->
  Dict.get d "status" = Some status ->
  eq_int status 401 || eq_int status 403 || eq_int status 500 = false ->
  request_id_of (JObj d) = inr request_id ->
  request_id ∈ pending w ->
  exists w',
    handle_frame message w = (Returned tt, w')
    /\ responses w' !! request_id = Some (JObj d)
    /\ (request_id ∉ pending w')
    /\ journal w' = journal w.
Proof.
  clear json_dumps UUID_str.
  intros Hl Hg Hst Hr Hin.
  apply orb_false_iff in Hst as [Hst H500].
  apply orb_false_iff in Hst as [H401 H403].
  assert (Hs : status_check (JObj d) = inr None).
  { rewrite status_check_object, Hg. unfold status_entry.
    by rewrite H401, H403, H500. }
  eexists. split; [exact (handle_frame_files _ _ _ _ Hl Hs Hr Hin) |].
  simpl. split; [apply lookup_insert_eq |]. split; [set_solver | reflexivity].
Qed.

(** X5. A second reply for an identifier whose reply is already filed is
    logged as unexpected and dropped: it does not replace the payload that
    was filed first. *)
Theorem duplicate_reply_is_dropped request_id m1 m2 d1 d2 w :
  request_id ∈ pending w ->
  json_loads m1 = inr d1 ->
  status_check d1 = inr None ->
  request_id_of d1 = inr request_id ->
  json_loads m2 = inr d2 ->
  status_check d2 = inr None ->
  request_id_of d2 = inr request_id ->
  exists w',
    _message_handler [m1; m2] w = (Returned tt, w')
    /\ responses w' !! request_id = Some d1
    /\ (request_id ∉ pending w')
    /\ journal w' = journal w ++ [Unexpected request_id].
Proof.
  clear json_dumps UUID_str.
  intros Hin Hl1 Hs1 Hr1 Hl2 Hs2 Hr2.
  cbn [_message_handler]. unfold mbind, aio_mbind, aio_bind.
  rewrite (handle_frame_files _ _ _ _ Hl1 Hs1 Hr1 Hin).
  rewrite (handle_frame_unexpected _ _ _ _ Hl2 Hs2 Hr2)
    by (simpl; set_solver).
  eexists. split; [reflexivity |]. simpl.
  split; [apply lookup_insert_eq |]. split; [set_solver | reflexivity].
Qed.

(** X6. Replies are matched to requests by identifier, not by arrival
    order: with two requests pending and their replies arriving in the
    opposite order, each [_retrieve_response] returns the payload that
    carries its own identifier, and both identifiers have then left both
    tables. *)
Theorem replies_matched_by_identifier a b ma mb da db wait_a wait_b w :
  a <> b ->
  a ∈ pending w ->
  b ∈ pending w ->
  json_loads ma = inr da ->
  status_check da = inr None ->
  request_id_of da = inr a ->
  json_loads mb = inr db ->
  status_check db = inr None ->
  request_id_of db = inr b ->
  0 < wait_a ->
  0 < wait_b ->
  exists w1 w2 w3,
    _message_handler [mb; ma] w = (Returned tt, w1)
    /\ _retrieve_response a wait_a w1 = (Returned da, w2)
    /\ _retrieve_response b wait_b w2 = (Returned db, w3)
    /\ pending w3 = pending w ∖ {[a; b]}
    /\ responses w3 !! a = None
    /\ responses w3 !! b = None.
Proof.
  clear json_dumps.
  intros Hab Ha Hb Hla Hsa Hra Hlb Hsb Hrb Hwa Hwb.
  eexists. eexists. eexists. split.
  { cbn [_message_handler]. unfold mbind, aio_mbind, aio_bind.
    rewrite (handle_frame_files _ _ _ _ Hlb Hsb Hrb Hb).
    rewrite (handle_frame_files _ _ _ _ Hla Hsa Hra)
      by (simpl; set_solver).
    reflexivity. }
  split.
  { apply retrieve_filed; [exact Hwa | simpl; set_solver |].
    simpl. apply lookup_insert_eq. }
  split.
  { apply retrieve_filed; [exact Hwb | simpl; set_solver |].
    simpl. rewrite lookup_delete_ne by done.
    rewrite lookup_insert_ne by done. apply lookup_insert_eq. }
  simpl. split; [set_solver |]. split.
  - rewrite lookup_delete_ne by done. apply lookup_delete_eq.
  - apply lookup_delete_eq.
Qed.

(** ** The connection lifecycle, operation after operation *)

(** X7. On a handler that is not connected, connect() returns normally
    exactly when the hello parses and either advertises the declared
    version string or lets the version lookup run into a missing key; for
    every other hello it raises. *)
Theorem connect_returns_iff api_version hello w :
  connected (self w) = false ->
  (exists w', connect api_version hello w = (Returned tt, w'))
  <-> (exists connect_message,
          json_loads hello = inr connect_message
          /\ (advertised_version connect_message = inr (JStr api_version)
              \/ exists k,
                  advertised_version connect_message = inl (KeyError k))).
Proof.
  intros Hc. split.
  - intros [w' H]. revert H. unfold connect, start_listener. run.
    rewrite Hc. destruct (json_loads hello) as [[] | cm]; try discriminate.
    intros H. exists cm. split; [reflexivity |].
    destruct (advertised_version cm) as [[] | v]; try discriminate; eauto.
    left. destruct v; try discriminate. simpl in H.
    destruct (String.eqb_spec s api_version); [by subst | discriminate].
  - intros (cm & Hl & [Hv | [k Hv]]).
    + eexists. exact (connect_match _ _ _ _ Hc Hl Hv).
    + eexists. exact (connect_no_version _ _ _ _ _ Hc Hl Hv).
Qed.

(** X8. A hello that is valid JSON but not an object is not reported as an
    unparseable connect message: subscripting it raises TypeError, which
    neither [except] clause of connect() catches.  The socket opened for
    the attempt stays stored and no listener is started. *)
Theorem connect_hello_not_object api_version hello connect_message w :
  connected (self w) = false ->
  json_loads hello = inr connect_message ->
  (forall members, connect_message <> JObj members) ->
  exists w',
    connect api_version hello w = (Raised TypeError, w')
    /\ connected (self w') = true
    /\ _listener_task (self w') = _listener_task (self w)
    /\ journal w' = journal w.
Proof.
  intros Hc Hl Hobj.
  assert (Hv : advertised_version connect_message = inl TypeError).
  { unfold advertised_version. destruct connect_message; try reflexivity.
    exfalso. eapply Hobj. reflexivity. }
  eexists. split.
  - unfold connect. run. rewrite Hc, Hl, Hv. reflexivity.
  - repeat split.
Qed.

(** X9. connect() followed by disconnect() is a round trip on a handler
    that has no socket and no listener task: the handler object is again
    what it was, parameters and both tables included.  A second
    disconnect() then raises NotConnectedError. *)
Theorem connect_disconnect_round_trip api_version hello connect_message w :
  _connection (self w) = None ->
  _listener_task (self w) = None ->
  json_loads hello = inr connect_message ->
  advertised_version connect_message = inr (JStr api_version) ->
  exists w1 w2,
    connect api_version hello w = (Returned tt, w1)
    /\ disconnect w1 = (Returned tt, w2)
    /\ self w2 = self w
    /\ disconnect w2 = (Raised (NotConnectedError None), w2).
Proof.
  intros Hconn Ht Hl Hv.
  assert (Hc : connected (self w) = false)
    by (unfold connected; by rewrite Hconn).
  eexists. eexists. split; [exact (connect_match _ _ _ _ Hc Hl Hv) |].
  split; [reflexivity |]. split.
  - simpl. destruct (self w); simpl in *. by subst.
  - unfold disconnect. run. reflexivity.
Qed.

(** X10. A handler whose socket is open but which has no listener task,
    the state a failed connect() leaves, cannot be brought back by
    reconnect(): whatever the overrides, the disconnect() inside raises
    AttributeError before any parameter is changed, and nothing is
    dialled. *)
Theorem reconnect_cannot_recover
    api_version hostname token tls hello w :
  connected (self w) = true ->
  _listener_task (self w) = None ->
  reconnect api_version hostname token tls hello w = (Raised AttributeError, w).
Proof.
  intros Hc Ht. unfold reconnect, disconnect. run.
  rewrite Hc. simpl. rewrite Hc. simpl. rewrite Ht. reflexivity.
Qed.

(** The overrides touch the three parameters only. *)
Lemma apply_overrides_keeps hostname token tls h :
  let h' := apply_overrides hostname token tls h in
  _connection h' = _connection h
  /\ _listener_task h' = _listener_task h
  /\ _waiting_requests h' = _waiting_requests h
  /\ _request_responses h' = _request_responses h.
Proof.
  unfold apply_overrides.
  destruct (truthy hostname), (truthy token), (default false tls);
    repeat split.
Qed.

(** X11. reconnect() on a connected handler with its listener, against a
    server that advertises the declared version: the old socket and task
    are dropped and a new socket is dialled to the URI of the parameters
    after the overrides, with nothing sent on it yet and a new listener
    running.  The Pending Set and the Response Table are carried over
    unchanged: requests that were pending on the old socket stay pending. *)
Theorem reconnect_replaces_socket
    api_version hostname token tls hello connect_message t w :
  connected (self w) = true ->
  _listener_task (self w) = Some t ->
  json_loads hello = inr connect_message ->
  advertised_version connect_message = inr (JStr api_version) ->
  exists w' c,
    reconnect api_version hostname token tls hello w = (Returned tt, w')
    /\ _connection (self w') = Some c
    /\ uri c = target_uri (apply_overrides hostname token tls (self w))
    /\ open c = true
    /\ sent c = []
    /\ _listener_task (self w') = Some Running
    /\ pending w' = pending w
    /\ responses w' = responses w
    /\ journal w' = journal w.
Proof.
  intros Hc Ht Hl Hv.
  rewrite (reconnect_connected _ _ _ _ _ _ _ Hc Ht).
  set (h0 := set_connection None (set_listener_task None (self w))).
  destruct (apply_overrides_keeps hostname token tls h0)
    as (Kc & _ & Kw & Kr).
  assert (Hc0 : connected (self (set_self
                  (apply_overrides hostname token tls h0) w)) = false).
  { unfold connected. simpl. by rewrite Kc. }
  rewrite (connect_match _ _ _ _ Hc0 Hl Hv).
  eexists. eexists. split; [reflexivity |]. simpl.
  split; [reflexivity |]. split.
  { unfold websockets_connect, target_uri, apply_overrides, h0. simpl.
    destruct (truthy hostname), (truthy token), (default false tls);
      reflexivity. }
  rewrite Kw, Kr. repeat split.
Qed.

(** ** Waiting, tick by tick *)

(** With no live listener the polling loop runs its whole range and the
    handler object is not touched, whatever frames arrive. *)
Lemma poll_without_listener request_id n : forall w,
  listening (self w) = false ->
  request_id ∈ pending w ->
  exists w',
    poll request_id n w = (Returned true, w')
    /\ self w' = self w
    /\ clock w' = (clock w + n)%nat
    /\ journal w' = journal w.
Proof.
  clear json_dumps UUID_str.
  induction n as [| n IH]; intros w Hl Hin.
  - exists w. split; [reflexivity |]. auto with arith.
  - cbn [poll]. unfold mbind at 1, aio_mbind, aio_bind, get_self.
    destruct (decide (request_id ∈ pending w)); [| contradiction].
    unfold mbind at 1, aio_mbind, aio_bind.
    rewrite (sleep_without_listener _ Hl).
    match goal with |- context [poll _ _ ?x] => set (w1 := x) end.
    destruct (IH w1 Hl Hin) as (w' & Hp & Hs & Hc & Hj).
    exists w'. split; [exact Hp |]. simpl in *.
    repeat split; [assumption | lia | assumption].
Qed.

(** X12. disconnect() clears neither table, and it ends the listener: a
    request that was pending when the handler disconnected stays pending,
    and a [_retrieve_response] for it runs into TimeoutError after its
    whole budget whatever frames arrive, leaving the handler object as
    disconnect() left it. *)
Theorem pending_request_outlives_disconnect request_id max_wait w w1 :
  disconnect w = (Returned tt, w1) ->
  request_id ∈ pending w ->
  0 <= max_wait ->
  pending w1 = pending w
  /\ responses w1 = responses w
  /\ exists w2,
      _retrieve_response request_id max_wait w1
      = (Raised (TimeoutError ("API took too long to respond to request "
                               +:+ UUID_str request_id)), w2)
      /\ self w2 = self w1
      /\ Z.of_nat (clock w2) = Z.of_nat (clock w1) + max_wait.
Proof.
  clear json_dumps.
  unfold disconnect. run.
  destruct (connected (self w)); simpl; [| discriminate].
  destruct (_listener_task (self w)); [| discriminate].
  intros [= <-] Hin Hnn. simpl. split; [reflexivity |].
  split; [reflexivity |].
  match goal with |- context [_retrieve_response _ _ ?x] => set (w1 := x) end.
  destruct (poll_without_listener request_id (Z.to_nat max_wait) w1 eq_refl Hin)
    as (w2 & Hp & Hs & Hc & _).
  exists w2. split; [| split; [exact Hs | simpl in Hc; lia]].
  unfold _retrieve_response. run.
  rewrite (bool_decide_eq_true_2 _ Hin). simpl. fold w1. rewrite Hp.
  reflexivity.
Qed.

(** A sleep during which nothing arrives, with the listener alive. *)
Lemma sleep_idle batches w :
  listening (self w) = true ->
  incoming w = [] :: batches ->
  sleep w
  = (Returned tt,
     {| self := self w; journal := journal w; clock := S (clock w);
        incoming := batches; entropy := entropy w |}).
Proof.
  intros Hl Hi. unfold sleep. cbn [self]. rewrite Hl, Hi. reflexivity.
Qed.

(** The polling loop when nothing arrives for [k] ticks and the reply
    arrives during the next one: a range longer than [k + 1] is left by
    [break] after [k + 1] sleeps, a range of exactly [k + 1] is used up. *)
Lemma poll_reply_after request_id message data rest k : forall n w,
  request_id ∈ pending w ->
  listening (self w) = true ->
  incoming w = replicate k [] ++ [message] :: rest ->
  json_loads message = inr data ->
  status_check data = inr None ->
  request_id_of data = inr request_id ->
  exists w',
    poll request_id (S k + n) w = (Returned (Nat.eqb n 0), w')
    /\ self w' = file request_id data (self w)
    /\ clock w' = (clock w + S k)%nat
    /\ incoming w' = rest
    /\ journal w' = journal w.
Proof.
  clear json_dumps UUID_str.
  induction k as [| k IH]; intros n w Hin Hlive Hinc Hl Hs Hr.
  - cbn [replicate app] in Hinc. cbn [Nat.add poll].
    unfold mbind at 1, aio_mbind, aio_bind, get_self.
    destruct (decide (request_id ∈ pending w)); [| contradiction].
    unfold mbind at 1, aio_mbind, aio_bind.
    rewrite (sleep_files_reply _ _ _ _ _ Hin Hlive Hinc Hl Hs Hr).
    eexists. split.
    + destruct n as [| n]; [reflexivity |].
      apply poll_answered. simpl. set_solver.
    + simpl. repeat split. lia.
  - cbn [replicate app] in Hinc.
    change (S (S k) + n)%nat with (S (S k + n)). cbn [poll].
    unfold mbind at 1, aio_mbind, aio_bind, get_self.
    destruct (decide (request_id ∈ pending w)); [| contradiction].
    unfold mbind at 1, aio_mbind, aio_bind.
    rewrite (sleep_idle _ _ Hlive Hinc).
    match goal with |- context [poll _ _ ?x] => set (w1 := x) end.
    destruct (IH n w1 Hin Hlive eq_refl Hl Hs Hr)
      as (w' & Hp & Hself & Hc & Hi & Hj).
    exists w'. split; [exact Hp |]. simpl in *.
    repeat split; try assumption. lia.
Qed.

(** X13. The reply is picked up at the first poll after it was filed: when
    nothing arrives for [k] ticks, the reply arrives during tick [k + 1]
    and the budget is larger than [k + 1], [_retrieve_response] returns
    the reply after exactly [k + 1] sleeps, with the identifier out of
    both tables. *)
Theorem retrieve_returns_at_next_poll
    request_id message data rest k max_wait w :
  request_id ∈ pending w ->
  listening (self w) = true ->
  incoming w = replicate k [] ++ [message] :: rest ->
  json_loads message = inr data ->
  status_check data = inr None ->
  request_id_of data = inr request_id ->
  Z.of_nat k + 1 < max_wait ->
  exists w',
    _retrieve_response request_id max_wait w = (Returned data, w')
    /\ clock w' = (clock w + S k)%nat
    /\ (request_id ∉ pending w')
    /\ responses w' !! request_id = None
    /\ incoming w' = rest.
Proof.
  clear json_dumps.
  intros Hin Hlive Hinc Hl Hs Hr Hlt.
  assert (Hn : exists n, Z.to_nat max_wait = (S k + S n)%nat)
    by (exists (Z.to_nat max_wait - S k - 1)%nat; lia).
  destruct Hn as [n Hn].
  destruct (poll_reply_after _ _ _ _ _ (S n) _ Hin Hlive Hinc Hl Hs Hr)
    as (w1 & Hp & Hself & Hc & Hi & _).
  unfold _retrieve_response. run.
  rewrite (bool_decide_eq_true_2 _ Hin). simpl. rewrite Hn, Hp. simpl.
  rewrite Hself. simpl. rewrite lookup_insert_eq.
  eexists. split; [reflexivity |]. simpl. rewrite Hself. simpl.
  split; [exact Hc |]. split; [set_solver |].
  split; [apply lookup_delete_eq | exact Hi].
Qed.

(** X14. The tables are looked at before each sleep and not after the
    last one: when the reply arrives during the last tick of the budget
    ([max_wait = k + 1]), [_retrieve_response] still raises TimeoutError.
    The reply is then in the Response Table, unclaimed, and the
    identifier is no longer pending. *)
Theorem retrieve_misses_reply_at_deadline
    request_id message data rest k w :
  request_id ∈ pending w ->
  listening (self w) = true ->
  incoming w = replicate k [] ++ [message] :: rest ->
  json_loads message = inr data ->
  status_check data = inr None ->
  request_id_of data = inr request_id ->
  exists w',
    _retrieve_response request_id (Z.of_nat k + 1) w
    = (Raised (TimeoutError ("API took too long to respond to request "
                             +:+ UUID_str request_id)), w')
    /\ clock w' = (clock w + S k)%nat
    /\ (request_id ∉ pending w')
    /\ responses w' !! request_id = Some data.
Proof.
  clear json_dumps.
  intros Hin Hlive Hinc Hl Hs Hr.
  assert (Hn : Z.to_nat (Z.of_nat k + 1) = (S k + 0)%nat) by lia.
  destruct (poll_reply_after _ _ _ _ _ 0%nat _ Hin Hlive Hinc Hl Hs Hr)
    as (w1 & Hp & Hself & Hc & _).
  exists w1. split.
  - unfold _retrieve_response. run.
    rewrite (bool_decide_eq_true_2 _ Hin). simpl. rewrite Hn, Hp. reflexivity.
  - rewrite Hself. simpl.
    split; [exact Hc |]. split; [set_solver | apply lookup_insert_eq].
Qed.

(** The polling loop always comes back, and when it is left by [break]
    the reply is there: an identifier that was in one of the tables and is
    no longer pending has been filed. *)
Lemma poll_break_finds_reply request_id n : forall w,
  request_id ∈ pending w \/ request_id ∈ dom (responses w) ->
  exists b w',
    poll request_id n w = (Returned b, w')
    /\ (b = false ->
        (request_id ∉ pending w') /\ request_id ∈ dom (responses w')).
Proof.
  clear json_dumps UUID_str.
  induction n as [| n IH]; intros w HP.
  - exists true, w. split; [reflexivity | discriminate].
  - cbn [poll]. unfold mbind at 1, aio_mbind, aio_bind, get_self.
    destruct (decide (request_id ∈ pending w)) as [Hin | Hout].
    + destruct (sleep_tables
                  (fun Wx Rx => request_id ∈ Wx \/ request_id ∈ dom Rx) w HP)
        as (w1 & Hs & HP1 & _).
      { intros Wx Rx f data id' _ _ _ _ [H | H]; rewrite dom_insert_L.
        - destruct (decide (id' = request_id)) as [-> | Hne]; set_solver.
        - set_solver. }
      unfold mbind at 1, aio_mbind, aio_bind. rewrite Hs.
      exact (IH w1 HP1).
    + exists false, w. split; [reflexivity |]. intros _.
      destruct HP as [? | ?]; [contradiction | auto].
Qed.

(** X15. With the dispatch loop as the only other task, the error
    "already consumed by something else" cannot occur.  A
    [_retrieve_response] either returns a payload, or raises TimeoutError,
    or raises the APIError for an identifier that was in neither table,
    and this last one before anything has changed. *)
Theorem retrieve_outcomes request_id max_wait w :
  exists o w',
    _retrieve_response request_id max_wait w = (o, w')
    /\ ((exists data, o = Returned data)
        \/ o = Raised (TimeoutError ("API took too long to respond to request "
                                     +:+ UUID_str request_id))
        \/ (o = Raised (APIError
                          ("Response " +:+ UUID_str request_id
                           +:+ " already consumed or request never queued"))
            /\ w' = w
            /\ (request_id ∉ pending w)
            /\ (request_id ∉ dom (responses w)))).
Proof.
  clear json_dumps.
  unfold _retrieve_response. run.
  destruct (negb (bool_decide (request_id ∈ pending w))
            && negb (bool_decide (request_id ∈ dom (responses w))))
    eqn:Htest.
  - apply andb_true_iff in Htest as [H1 H2].
    apply negb_true_iff, bool_decide_eq_false in H1.
    apply negb_true_iff, bool_decide_eq_false in H2.
    eexists. eexists. split; [reflexivity |]. right. right. auto.
  - assert (HP : request_id ∈ pending w \/ request_id ∈ dom (responses w)).
    { apply andb_false_iff in Htest as [H | H];
        apply negb_false_iff, bool_decide_eq_true in H; auto. }
    destruct (poll_break_finds_reply request_id (Z.to_nat max_wait) w HP)
      as (b & w1 & Hp & Hb).
    rewrite Hp. destruct b; simpl.
    + eexists. eexists. split; [reflexivity | right; left; reflexivity].
    + destruct (Hb eq_refl) as [_ Hdom].
      apply elem_of_dom in Hdom as [data Hdata]. rewrite Hdata.
      eexists. eexists. split; [reflexivity | left; eauto].
Qed.

(** ** The call engine, end to end *)

Lemma get_set_ne d k k' v :
  k <> k' -> Dict.get (Dict.set d k v) k' = Dict.get d k'.
Proof.
  intros Hne. induction d as [| [k0 v0] d IH]; simpl.
  - destruct (String.eqb_spec k k'); [contradiction | reflexivity].
  - destruct (String.eqb_spec k0 k) as [-> | Hk]; simpl.
    + destruct (String.eqb_spec k k'); [contradiction |].
      destruct (String.eqb_spec k k'); [contradiction | reflexivity].
    + destruct (String.eqb k0 k'); [reflexivity | exact IH].
Qed.

(** [call] on parameters without a "meta" key hands [_request] the
    parameters with the caller's meta and the action pair added. *)
Lemma call_without_meta endpoint action params meta w :
  Dict.get (default [] params) "meta" = None ->
  call endpoint action params meta w
  = _request (JObj (Dict.set
                      (Dict.set (default [] params) "meta"
                         (JObj (default [] meta)))
                      "action" (JArr [JStr endpoint; JStr action]))) w.
Proof.
  intros Hg. unfold call, Dict.mem. rewrite Hg. reflexivity.
Qed.

(** Stamping what [call] built always succeeds. *)
Lemma stamp_call endpoint action params meta s :
  stamp (JObj (Dict.set (Dict.set params "meta" (JObj meta)) "action"
                 (JArr [JStr endpoint; JStr action]))) s
  = inr (JObj (envelope_of endpoint action params meta s)).
Proof.
  unfold stamp, envelope_of. cbn [keys and_then]. rewrite has_key_mem.
  unfold Dict.mem. cbn [getitem].
  rewrite get_set_ne by discriminate. rewrite get_set_eq.
  reflexivity.
Qed.

(** Minting when the first [uuid4()] output is unused. *)
Lemma mint_first_draw request_id ids w :
  entropy w = request_id :: ids ->
  taken (self w) request_id = false ->
  mint w
  = (Returned request_id,
     {| self := self w; journal := journal w; clock := clock w;
        incoming := incoming w; entropy := ids |}).
Proof.
  intros He Ht. unfold mint, uuid4. unfold mbind, aio_mbind, aio_bind.
  rewrite He. cbn [length redraw].
  unfold mbind, aio_mbind, aio_bind, get_self. cbn [self]. by rewrite Ht.
Qed.

(** X16. A call on a handler that is not connected raises
    NotConnectedError from [_send_raw].  By then a request identifier has
    been drawn, but it is not registered: both tables and the rest of the
    handler object are as before, and no frame has gone out. *)
Theorem call_needs_connection
    endpoint action params meta request_id ids w :
  connected (self w) = false ->
  Dict.get (default [] params) "meta" = None ->
  entropy w = request_id :: ids ->
  taken (self w) request_id = false ->
  call endpoint action params meta w
  = (Raised (NotConnectedError None),
     {| self := self w; journal := journal w; clock := clock w;
        incoming := incoming w; entropy := ids |}).
Proof.
  intros Hc Hg He Ht. rewrite (call_without_meta _ _ _ _ _ Hg).
  unfold _request. unfold mbind at 1, aio_mbind, aio_bind.
  rewrite (mint_first_draw _ _ _ He Ht).
  unfold mbind at 1, aio_mbind, aio_bind. rewrite stamp_call.
  unfold _send_raw. run. by rewrite Hc.
Qed.

(** X17. What a call puts on the wire, for parameters without a "meta"
    key on a connected handler: one frame, the serialised envelope, sent
    before the identifier joins the Pending Set and the wait begins.  In
    the envelope "action" is the pair of endpoint and action whatever
    [params] held under that key, [meta.request_id] is the minted
    identifier whatever the caller's meta held there, the caller's other
    meta entries and the other parameters are passed on unchanged. *)
Theorem call_sends_envelope
    endpoint action params meta request_id ids w :
  connected (self w) = true ->
  Dict.get (default [] params) "meta" = None ->
  entropy w = request_id :: ids ->
  taken (self w) request_id = false ->
  let envelope :=
    envelope_of endpoint action (default [] params) (default [] meta)
      (UUID_str request_id) in
  call endpoint action params meta w
  = _retrieve_response request_id default_max_wait
      {| self := set_waiting_requests (pending w ∪ {[request_id]})
                   (send (json_dumps (JObj envelope)) (self w));
         journal := journal w; clock := clock w; incoming := incoming w;
         entropy := ids |}
  /\ Dict.get envelope "action" = Some (JArr [JStr endpoint; JStr action])
  /\ (exists m,
        Dict.get envelope "meta" = Some (JObj m)
        /\ Dict.get m "request_id" = Some (JStr (UUID_str request_id))
        /\ forall k, k <> "request_id" ->
                     Dict.get m k = Dict.get (default [] meta) k)
  /\ (forall k, k <> "meta" -> k <> "action" ->
                Dict.get envelope k = Dict.get (default [] params) k).
Proof.
  intros Hc Hg He Ht envelope. split; [| split; [| split]].
  - rewrite (call_without_meta _ _ _ _ _ Hg).
    rewrite (request_after_mint _ _ _ _ _ (mint_first_draw _ _ _ He Ht)
               (stamp_call _ _ _ _ _) Hc).
    reflexivity.
  - unfold envelope, envelope_of.
    rewrite get_set_ne by discriminate. apply get_set_eq.
  - eexists. split; [apply get_set_eq |].
    split; [apply get_set_eq |].
    intros k Hk. apply get_set_ne. congruence.
  - intros k Hm Ha. unfold envelope, envelope_of.
    rewrite !get_set_ne by congruence. reflexivity.
Qed.

(** X18. When [params] comes with a "meta" entry that is not a dict, the
    merge of the caller's meta raises AttributeError.  This happens before
    an identifier is drawn: the world is exactly as before. *)
Theorem call_rejects_meta_that_is_no_dict
    endpoint action params meta v w :
  Dict.get (default [] params) "meta" = Some v ->
  (forall m, v <> JObj m) ->
  call endpoint action params meta w = (Raised AttributeError, w).
Proof.
  intros Hg Hv. unfold call, Dict.mem. rewrite Hg. run.
  destruct v; try reflexivity. exfalso. eapply Hv. reflexivity.
Qed.

(** X19. A call that is answered leaves no trace in the tables: when the
    reply carrying the minted identifier arrives during the first tick of
    the wait, [call] returns the decoded reply after that one tick, and
    the Pending Set and the Response Table are what they were before the
    call. *)
Theorem answered_call_leaves_tables
    endpoint action params meta request_id ids message reply batches w :
  connected (self w) = true ->
  listening (self w) = true ->
  Dict.get (default [] params) "meta" = None ->
  entropy w = request_id :: ids ->
  taken (self w) request_id = false ->
  incoming w = [message] :: batches ->
  json_loads message = inr reply ->
  status_check reply = inr None ->
  request_id_of reply = inr request_id ->
  exists w',
    call endpoint action params meta w = (Returned reply, w')
    /\ pending w' = pending w
    /\ responses w' = responses w
    /\ clock w' = S (clock w).
Proof.
  intros Hc Hlive Hg He Ht Hinc Hl Hs Hr.
  rewrite (call_without_meta _ _ _ _ _ Hg).
  destruct (request_answered _ _ _ _ _ _ _ _ Hc Hlive He Ht
              (stamp_call endpoint action (default [] params)
                 (default [] meta) (UUID_str request_id))
              Hinc Hl Hs Hr) as (w' & Hreq & _ & Hp & HR & Hclock).
  exists w'. split; [exact Hreq |].
  apply taken_false in Ht as [HW _].
  split; [rewrite Hp; set_solver |]. split; [exact HR |].
  exact Hclock.
Qed.

(** ** Minting, in full *)

Lemma redraw_rejects fuel : forall u w request_id w',
  redraw fuel u w = (Returned request_id, w') ->
  exists rejected,
    u :: entropy w = rejected ++ request_id :: entropy w'
    /\ Forall (fun x => taken (self w) x = true) rejected
    /\ taken (self w) request_id = false
    /\ self w' = self w.
Proof.
  induction fuel as [| fuel IH]; intros u w request_id w'; simpl; run;
    destruct (taken (self w) u) eqn:Ht.
  - discriminate.
  - intros [= <- <-]. exists []. auto.
  - unfold uuid4. destruct (entropy w) as [| u1 rest]; [discriminate |].
    intros H. apply IH in H as (rejected & He & Hall & Hid & Hself).
    simpl in *. exists (u :: rejected). rewrite He. auto.
  - intros [= <- <-]. exists []. auto.
Qed.

Lemma redraw_accepts rejected : forall fuel u w request_id rest,
  u :: entropy w = rejected ++ request_id :: rest ->
  Forall (fun x => taken (self w) x = true) rejected ->
  taken (self w) request_id = false ->
  (length (entropy w) <= fuel)%nat ->
  redraw fuel u w
  = (Returned request_id,
     {| self := self w; journal := journal w; clock := clock w;
        incoming := incoming w; entropy := rest |}).
Proof.
  induction rejected as [| r rejected IH];
    intros fuel u w request_id rest He Hall Hid Hlen.
  - injection He as -> He. destruct w as [h j c i e]; simpl in *. subst e.
    destruct fuel; simpl; run; by rewrite Hid.
  - injection He as -> He. inversion Hall as [| ? ? Hr Hall']; subst.
    destruct fuel as [| fuel].
    { rewrite He in Hlen. rewrite length_app in Hlen. simpl in Hlen. lia. }
    simpl. run. rewrite Hr. unfold uuid4.
    destruct (entropy w) as [| u1 tl] eqn:Hent.
    { destruct rejected; discriminate. }
    apply (IH fuel u1
             {| self := self w; journal := journal w; clock := clock w;
                incoming := incoming w; entropy := tl |});
      simpl in *; [exact He | exact Hall' | exact Hid | lia].
Qed.

(** X20. Minting takes the first [uuid4()] output that is in neither
    table.  Whatever it returns was preceded only by outputs that were in
    use, and it consumes exactly the outputs up to the one it returns;
    conversely, when such an output exists it is the one returned. *)
Theorem mint_takes_first_unused w :
  (forall request_id w',
      mint w = (Returned request_id, w') ->
      exists rejected,
        entropy w = rejected ++ request_id :: entropy w'
        /\ Forall (fun x => taken (self w) x = true) rejected
        /\ taken (self w) request_id = false)
  /\ (forall rejected request_id rest,
        entropy w = rejected ++ request_id :: rest ->
        Forall (fun x => taken (self w) x = true) rejected ->
        taken (self w) request_id = false ->
        mint w
        = (Returned request_id,
           {| self := self w; journal := journal w; clock := clock w;
              incoming := incoming w; entropy := rest |})).
Proof.
  split.
  - intros request_id w'. unfold mint, uuid4. run.
    destruct (entropy w) as [| u tl]; [discriminate |].
    intros H. apply redraw_rejects in H as (rejected & He & Hall & Hid & _).
    simpl in *. eauto.
  - intros rejected request_id rest He Hall Hid. unfold mint, uuid4. run.
    destruct (entropy w) as [| u tl] eqn:Hent.
    { destruct rejected; discriminate. }
    rewrite (redraw_accepts rejected (length (u :: tl)) u
               {| self := self w; journal := journal w; clock := clock w;
                  incoming := incoming w; entropy := tl |}
               request_id rest); simpl; auto.
Qed.

(** ** Frames the loop is written for *)

(** The request id of a well-shaped frame is found, or missing, or not a
    UUID: the lookup raises nothing else. *)
Lemma well_shaped_request_id data :
  well_shaped data = true ->
  (exists request_id, request_id_of data = inr request_id)
  \/ (exists k, request_id_of data = inl (KeyError k))
  \/ (exists m, request_id_of data = inl (ValueError m)).
Proof.
  unfold well_shaped, request_id_of.
  destruct data as [| | | | | | d]; try discriminate. cbn [getitem].
  destruct (Dict.get d "meta") as [[| | | | | | m] |]; try discriminate;
    cbn [and_then getitem]; [| eauto].
  destruct (Dict.get m "request_id") as [[| | | | s | |] |]; try discriminate;
    cbn [and_then]; [| eauto].
  intros _. unfold UUID_init. destruct (UUID_of_hex s); eauto.
Qed.

(** One such frame is handled without an exception. *)
Lemma handle_frame_survives message w :
  survives message = true ->
  exists w', handle_frame message w = (Returned tt, w').
Proof.
  unfold survives, handle_frame.
  destruct (json_loads message) as [[] | data]; try discriminate.
  { intros _. eexists. reflexivity. }
  intros Hw. destruct data as [| | | | | | d]; try discriminate.
  run. rewrite status_check_object.
  destruct (match Dict.get d "status" with
            | Some status => status_entry status
            | None => None
            end); [eexists; reflexivity |].
  unfold route.
  destruct (well_shaped_request_id _ Hw)
    as [[request_id ->] | [[k ->] | [m ->]]];
    try (eexists; reflexivity).
  run. destruct (decide (request_id ∈ pending w)); eexists; reflexivity.
Qed.

Lemma message_handler_survives frames : forall w,
  (forall f, f ∈ frames -> survives f = true) ->
  exists w', _message_handler frames w = (Returned tt, w').
Proof.
  induction frames as [| f rest IH]; intros w Hs.
  - exists w. reflexivity.
  - destruct (handle_frame_survives f w) as [w1 Hf]; [apply Hs; left |].
    destruct (IH w1) as [w' Hrest].
    { intros f' Hin. apply Hs. by right. }
    exists w'. cbn [_message_handler]. unfold mbind, aio_mbind, aio_bind.
    rewrite Hf. exact Hrest.
Qed.

(** X21. Frames of the shapes the loop is written for never end it.  When
    [json.loads] decodes every arriving frame to an object whose "meta",
    if present, is an object and whose "request_id", if present, is a
    string, or fails on it with JSONDecodeError, the loop handles them
    all, whatever their number and order, and after a sleep during which
    they arrive the listener task is still running. *)
Theorem well_shaped_frames_keep_loop_alive frames batches w :
  (forall f, f ∈ frames -> survives f = true) ->
  listening (self w) = true ->
  incoming w = frames :: batches ->
  (exists w', _message_handler frames w = (Returned tt, w'))
  /\ exists w',
      sleep w = (Returned tt, w')
      /\ listening (self w') = true
      /\ incoming w' = batches.
Proof.
  clear json_dumps UUID_str.
  intros Hs Hlive Hinc. split; [exact (message_handler_survives _ _ Hs) |].
  unfold sleep. cbn [self]. rewrite Hlive, Hinc. cbn [hd tail].
  match goal with |- context [_message_handler frames ?x] => set (w1 := x) end.
  destruct (message_handler_survives frames w1 Hs) as [w2 Hm].
  destruct (message_handler_tables (fun _ _ => True) frames w1 I)
    as (_ & Ho & Ht); [auto |].
  rewrite Hm in *. simpl in Ho, Ht.
  exists w2. split; [reflexivity |]. unfold outside in Ho.
  split.
  - unfold listening in *. rewrite Ht. exact Hlive.
  - simpl in Ho. congruence.
Qed.

(** ** A new handler, and the frames it sends *)

(** X22. A handler as [__init__] leaves it refuses everything but
    connect(): disconnect() and [_send_raw] raise NotConnectedError and
    [_retrieve_response] raises APIError for any identifier, each without
    changing anything; the loop is not running and the handler is not
    connected. *)
Theorem new_handler_refuses hostname token tls w :
  self w = init hostname token tls ->
  disconnect w = (Raised (NotConnectedError None), w)
  /\ (forall data, _send_raw data w = (Raised (NotConnectedError None), w))
  /\ (forall request_id max_wait,
        _retrieve_response request_id max_wait w
        = (Raised (APIError
                     ("Response " +:+ UUID_str request_id
                      +:+ " already consumed or request never queued")), w))
  /\ connected (self w) = false
  /\ listening (self w) = false.
Proof.
  intros Hs. split; [| split; [| split; [| split]]].
  - unfold disconnect. run. by rewrite Hs.
  - intros data. unfold _send_raw. run. by rewrite Hs.
  - intros request_id max_wait. apply retrieve_unknown; rewrite Hs; simpl.
    + apply not_elem_of_empty.
    + rewrite dom_empty_L. apply not_elem_of_empty.
  - by rewrite Hs.
  - by rewrite Hs.
Qed.

(** X23. [_send_raw] on a connected handler puts exactly one frame on the
    wire per call, in call order, and touches nothing but the socket:
    text goes out as it is, a dict goes out serialised. *)
Theorem send_raw_keeps_order a b w :
  connected (self w) = true ->
  exists w',
    (_send_raw a;; _send_raw b) w = (Returned tt, w')
    /\ option_map sent (_connection (self w'))
       = option_map (fun c => sent c ++ [frame_of a; frame_of b])
           (_connection (self w))
    /\ connected (self w') = true
    /\ pending w' = pending w
    /\ responses w' = responses w
    /\ _listener_task (self w') = _listener_task (self w)
    /\ journal w' = journal w.
Proof.
  intros Hc.
  assert (Hsend : forall data w0,
             connected (self w0) = true ->
             _send_raw data w0
             = (Returned tt, set_self (send (frame_of data) (self w0)) w0)).
  { intros data w0 H0. unfold _send_raw. run. rewrite H0.
    destruct data; reflexivity. }
  assert (Hc1 : connected
                  (self (set_self (send (frame_of a) (self w)) w)) = true).
  { unfold connected in *. simpl.
    destruct (_connection (self w)); [exact Hc | discriminate]. }
  eexists. split.
  - unfold mbind, aio_mbind, aio_bind.
    rewrite (Hsend a w Hc), (Hsend b _ Hc1). reflexivity.
  - unfold connected in *. simpl.
    destruct (_connection (self w)) as [c |]; [| discriminate]. simpl.
    rewrite <- app_assoc. repeat split. exact Hc.
Qed.

(** X24. Whatever the hello, a connect() on a handler that is not
    connected has dialled and stored a socket for the URI of the stored
    parameters: scheme wss:// with TLS and ws:// without, then the
    hostname, then "/?bearer=<token>" when a non-empty token is stored
    and nothing when the token is None or empty. *)
Theorem connect_dials_parameters api_version hello w :
  connected (self w) = false ->
  exists c,
    _connection (self (snd (connect api_version hello w))) = Some c
    /\ open c = true
    /\ sent c = []
    /\ uri c
       = (if _tls (self w) then "wss://" else "ws://") +:+ _hostname (self w)
         +:+ match _token (self w) with
             | Some t => if String.eqb t "" then "" else "/?bearer=" +:+ t
             | None => ""
             end.
Proof.
  intros Hc. exists (websockets_connect (self w)).
  split; [| split; [reflexivity | split; [reflexivity |]]].
  - unfold connect, start_listener. run. rewrite Hc.
    destruct (json_loads hello) as [[] | cm]; try reflexivity.
    destruct (advertised_version cm) as [[] | v]; try reflexivity.
    destruct (ne_str v api_version); reflexivity.
  - unfold websockets_connect, target_uri, truthy. simpl.
    destruct (_tls (self w)), (_token (self w)) as [t |]; try reflexivity;
      destruct (String.eqb t ""); reflexivity.
Qed.

(** X25. NotConnectedError, UnauthorizedError, ForbiddenError and
    InternalAPIError never show an empty message.  Constructed without a
    message, or with an empty one, each shows the fallback text of its own
    class; constructed with a non-empty message each shows that message. *)
Theorem exception_message_fallback (message : option string) :
  (message = None \/ message = Some "" ->
   exn_message (NotConnectedError message) = Some "Not connected to API"
   /\ exn_message (UnauthorizedError message)
      = Some "(401) API token required, but not provided"
   /\ exn_message (ForbiddenError message)
      = Some "(403) Insufficient permissions"
   /\ exn_message (InternalAPIError message)
      = Some "(500) Internal Server Error in the API")
  /\ (forall m,
        message = Some m -> m <> "" ->
        exn_message (NotConnectedError message) = Some m
        /\ exn_message (UnauthorizedError message) = Some m
        /\ exn_message (ForbiddenError message) = Some m
        /\ exn_message (InternalAPIError message) = Some m)
  /\ (forall e s,
        e = NotConnectedError message \/ e = UnauthorizedError message
        \/ e = ForbiddenError message \/ e = InternalAPIError message ->
        exn_message e = Some s -> s <> "").
Proof.
  split; [| split].
  - intros [-> | ->]; repeat split.
  - intros m -> Hm. simpl. unfold message_or.
    destruct (String.eqb_spec m ""); [contradiction | repeat split].
  - intros e s He Hs.
    destruct message as [m |]; [destruct (String.eqb_spec m "") as [-> | Hm] |].
    + destruct He as [-> | [-> | [-> | ->]]]; injection Hs as <-;
        discriminate.
    + destruct He as [-> | [-> | [-> | ->]]]; simpl in Hs;
        unfold message_or in Hs;
        destruct (String.eqb_spec m ""); try contradiction;
        by injection Hs as <-.
    + destruct He as [-> | [-> | [-> | ->]]]; injection Hs as <-;
        discriminate.
Qed.

(** ** Replies that arrive during a wait, and after it *)

(** The loop over two runs of frames is the loop over the first and then,
    if no exception left it, over the second. *)
Lemma message_handler_app a b : forall w,
  _message_handler (a ++ b) w
  = match _message_handler a w with
    | (Returned _, w') => _message_handler b w'
    | (Raised e, w') => (Raised e, w')
    | (Starved, w') => (Starved, w')
    end.
Proof.
  induction a as [| f a IH]; intros w; [reflexivity |].
  cbn [app _message_handler]. unfold mbind, aio_mbind, aio_bind.
  destruct (handle_frame f w) as [[[] | e |] w1]; [apply IH | reflexivity ..].
Qed.


Lemma undisturbed_app request_id a b :
  undisturbed request_id (a ++ b) ->
  undisturbed request_id a /\ undisturbed request_id b.
Proof.
  unfold undisturbed, quiet_for. intros [Hq Hs].
  repeat split; intros f; intros; (eapply Hq || apply Hs); eauto;
    apply elem_of_app; auto.
Qed.

(** The loop changes nothing but the tables and the log. *)
Lemma message_handler_outside frames w :
  outside (snd (_message_handler frames w)) = outside w
  /\ _listener_task (self (snd (_message_handler frames w)))
     = _listener_task (self w).
Proof.
  destruct (message_handler_tables (fun _ _ => True) frames w I)
    as (_ & Ho & Ht); auto.
Qed.

(** Frames that do not disturb are handled to the end and leave the
    request pending. *)
Lemma message_handler_undisturbed request_id frames w :
  request_id ∈ pending w ->
  undisturbed request_id frames ->
  exists w',
    _message_handler frames w = (Returned tt, w')
    /\ request_id ∈ pending w'
    /\ responses w' !! request_id = responses w !! request_id.
Proof.
  clear json_dumps UUID_str.
  intros Hin [Hq Hs].
  destruct (message_handler_survives frames w Hs) as [w' Hm].
  destruct (message_handler_tables
              (fun Wx Rx => request_id ∈ Wx
                            /\ Rx !! request_id = responses w !! request_id)
              frames w) as ([H1 H2] & _).
  - auto.
  - intros Wx Rx f data id' Hf Hl Hr Hin' [HW HR].
    assert (id' <> request_id) by (intros ->; exact (Hq f data Hf Hl Hr)).
    split; [set_solver | by rewrite lookup_insert_ne].
  - rewrite Hm in *. exists w'. auto.
Qed.

(** A batch in which the reply to a pending request comes after frames
    that do not disturb: whatever follows the reply in the batch, the
    reply is filed and stays filed. *)
Lemma message_handler_files_reply request_id message data pre post w :
  request_id ∈ pending w ->
  undisturbed request_id pre ->
  json_loads message = inr data ->
  status_check data = inr None ->
  request_id_of data = inr request_id ->
  let w' := snd (_message_handler (pre ++ message :: post) w) in
  responses w' !! request_id = Some data /\ (request_id ∉ pending w').
Proof.
  clear json_dumps UUID_str.
  intros Hin Hu Hl Hs Hr. rewrite message_handler_app.
  destruct (message_handler_undisturbed _ _ _ Hin Hu) as (wa & -> & Hina & _).
  cbn [_message_handler]. unfold mbind, aio_mbind, aio_bind.
  rewrite (handle_frame_files _ _ _ _ Hl Hs Hr Hina).
  destruct (message_handler_keeps_filed request_id data post
              (set_self (file request_id data (self wa)) wa)) as [H1 H2].
  - simpl. set_solver.
  - simpl. apply lookup_insert_eq.
  - auto.
Qed.

(** A sleep with the listener alive, in terms of the loop's run over the
    batch that arrives: the tables are those the run leaves, and the
    listener is still alive unless an exception left the loop. *)
Lemma sleep_listening w :
  listening (self w) = true ->
  let run := _message_handler (hd [] (incoming w))
               {| self := self w; journal := journal w; clock := S (clock w);
                  incoming := tail (incoming w); entropy := entropy w |} in
  exists w',
    sleep w = (Returned tt, w')
    /\ pending w' = pending (snd run)
    /\ responses w' = responses (snd run)
    /\ clock w' = S (clock w)
    /\ incoming w' = tail (incoming w)
    /\ (forall u, fst run = Returned u -> listening (self w') = true).
Proof.
  clear json_dumps UUID_str.
  intros Hlive run. unfold sleep. cbn [self]. rewrite Hlive. fold run.
  destruct (message_handler_outside (hd [] (incoming w))
              {| self := self w; journal := journal w; clock := S (clock w);
                 incoming := tail (incoming w); entropy := entropy w |})
    as [Ho Ht].
  fold run in Ho, Ht. unfold outside in Ho. simpl in Ho, Ht.
  destruct run as [[u | e |] w2]; simpl in *;
    (eexists; split; [reflexivity |]); simpl;
    repeat split; try congruence; try discriminate.
  all: intros _ _; unfold listening in *; by rewrite Ht.
Qed.

(** A sleep during which only frames that do not disturb arrive. *)
Lemma sleep_undisturbed request_id w :
  request_id ∈ pending w ->
  listening (self w) = true ->
  undisturbed request_id (hd [] (incoming w)) ->
  exists w',
    sleep w = (Returned tt, w')
    /\ request_id ∈ pending w'
    /\ responses w' !! request_id = responses w !! request_id
    /\ clock w' = S (clock w)
    /\ incoming w' = tail (incoming w)
    /\ listening (self w') = true.
Proof.
  clear json_dumps UUID_str.
  intros Hin Hlive Hu.
  destruct (sleep_listening w Hlive) as (w' & Hs & HW & HR & Hc & Hi & Hl).
  destruct (message_handler_undisturbed request_id (hd [] (incoming w))
              {| self := self w; journal := journal w; clock := S (clock w);
                 incoming := tail (incoming w); entropy := entropy w |}
              Hin Hu) as (w2 & Hm & Hin2 & HR2).
  rewrite Hm in *. simpl in *.
  exists w'. rewrite HW, HR. eauto 10.
Qed.

(** A sleep during which the reply arrives after frames that do not
    disturb. *)
Lemma sleep_files_in_batch request_id message data pre post rest w :
  request_id ∈ pending w ->
  listening (self w) = true ->
  incoming w = (pre ++ message :: post) :: rest ->
  undisturbed request_id pre ->
  json_loads message = inr data ->
  status_check data = inr None ->
  request_id_of data = inr request_id ->
  exists w',
    sleep w = (Returned tt, w')
    /\ responses w' !! request_id = Some data
    /\ (request_id ∉ pending w')
    /\ clock w' = S (clock w)
    /\ incoming w' = rest.
Proof.
  clear json_dumps UUID_str.
  intros Hin Hlive Hinc Hu Hl Hs Hr.
  destruct (sleep_listening w Hlive) as (w' & Hsl & HW & HR & Hc & Hi & _).
  rewrite Hinc in *. cbn [hd tail] in *.
  destruct (message_handler_files_reply request_id message data pre post
              {| self := self w; journal := journal w; clock := S (clock w);
                 incoming := rest; entropy := entropy w |}
              Hin Hu Hl Hs Hr) as [H1 H2].
  exists w'. rewrite HW, HR. auto.
Qed.

(** The polling loop over ticks that do not disturb: it runs through all
    of them with the request pending and the listener alive. *)
Lemma poll_undisturbed request_id waited : forall rest w,
  request_id ∈ pending w ->
  listening (self w) = true ->
  incoming w = waited ++ rest ->
  undisturbed request_id (concat waited) ->
  exists w',
    poll request_id (length waited) w = (Returned true, w')
    /\ request_id ∈ pending w'
    /\ responses w' !! request_id = responses w !! request_id
    /\ clock w' = (clock w + length waited)%nat
    /\ incoming w' = rest
    /\ listening (self w') = true.
Proof.
  clear json_dumps UUID_str.
  induction waited as [| b waited IH]; intros rest w Hin Hlive Hinc Hu.
  - exists w. simpl in *. repeat split; auto with arith.
  - cbn [concat] in Hu. apply undisturbed_app in Hu as [Hb Hu].
    cbn [length poll]. unfold mbind at 1, aio_mbind, aio_bind, get_self.
    destruct (decide (request_id ∈ pending w)); [| contradiction].
    destruct (sleep_undisturbed request_id w Hin Hlive)
      as (w1 & Hs & Hin1 & HR1 & Hc1 & Hi1 & Hl1).
    { by rewrite Hinc. }
    rewrite Hinc in Hi1. cbn [app tail] in Hi1.
    destruct (IH rest w1 Hin1 Hl1 Hi1 Hu)
      as (w' & Hp & Hin' & HR' & Hc' & Hi' & Hl').
    unfold mbind at 1, aio_mbind, aio_bind. rewrite Hs.
    exists w'. split; [exact Hp |].
    repeat split; try assumption; [congruence | lia].
Qed.








(** C10. When [_retrieve_response] ends in TimeoutError on a request that
    was not answered during the wait, the identifier is still in the
    Pending Set: the failed wait does not deregister it.  With the
    dispatch loop still running, a matching reply that arrives during a
    later tick is therefore filed in the Response Table by the loop, and
    it stays there whatever frames the loop handles afterwards. *)
Theorem late_reply_is_filed_after_timeout
    request_id message data waited pre post rest max_wait w :
  request_id ∈ pending w ->
  reply_arrives request_id message data waited pre post rest w ->
  Z.to_nat max_wait = length waited ->
  exists w1,
    _retrieve_response request_id max_wait w
    = (Raised (TimeoutError ("API took too long to respond to request "
                             +:+ UUID_str request_id)), w1)
    /\ request_id ∈ pending w1
    /\ responses w1 !! request_id = responses w !! request_id
    /\ exists w2,
        sleep w1 = (Returned tt, w2)
        /\ responses w2 !! request_id = Some data
        /\ (request_id ∉ pending w2)
        /\ forall later,
            responses (snd (_message_handler later w2)) !! request_id
            = Some data.
Proof.
  clear json_dumps.
  intros Hin (Hlive & Hinc & Hu & Hpre & Hl & Hs & Hr) Hn.
  destruct (poll_undisturbed request_id waited _ w Hin Hlive Hinc Hu)
    as (w1 & Hp & Hin1 & HR1 & _ & Hi1 & Hl1).
  exists w1. split; [| split; [exact Hin1 | split; [exact HR1 |]]].
  - unfold _retrieve_response. run.
    rewrite (bool_decide_eq_true_2 _ Hin). simpl. rewrite Hn, Hp. reflexivity.
  - destruct (sleep_files_in_batch _ _ _ _ _ _ _ Hin1 Hl1 Hi1 Hpre Hl Hs Hr)
      as (w2 & Hsl & HR2 & HW2 & _).
    exists w2. split; [exact Hsl |]. split; [exact HR2 |].
    split; [exact HW2 |]. intros later.
    exact (proj2 (message_handler_keeps_filed _ _ later _ HW2 HR2)).
Qed.

End BaseWebsocketAPIHandler.

(** * The properties on the sample data *)

Module Examples.

Import Sample.

(** connect() of a v2.1 handler against the v2.0 hello, and against the
    hello without a version. *)
Lemma connect_version_check_witness :
  (exists w',
      connect json_loads "v2.1" hello20_text (world_of fresh [] [])
      = (Raised (MismatchedVersionError "v2.1" (JStr "v2.0")), w')
      /\ _listener_task (self w') = None
      /\ journal w' = [])
  /\ (exists w',
        connect json_loads "v2.1" hello_bare_text (world_of fresh [] [])
        = (Returned tt, w')
        /\ listening (self w') = true
        /\ connected (self w') = true
        /\ journal w' = [NoVersionField]).
Proof.
  split.
  - destruct (connect_version_check json_loads "v2.1" hello20_text hello20
                (world_of fresh [] []) eq_refl eq_refl) as [H _].
    apply (H "v2.0"); [reflexivity | discriminate].
  - destruct (connect_version_check json_loads "v2.1" hello_bare_text
                hello_bare (world_of fresh [] []) eq_refl eq_refl) as [_ H].
    apply (H "API-Version"). reflexivity.
Defined.

Lemma failed_connect_breaks_invariant_witness :
  loop_iff_connected fresh
  /\ exists w',
      connect json_loads "v2.1" hello20_text (world_of fresh [] [])
      = (Raised (MismatchedVersionError "v2.1" (JStr "v2.0")), w')
      /\ connected (self w') = true
      /\ listening (self w') = false
      /\ ~ loop_iff_connected (self w')
      /\ disconnect w' = (Raised AttributeError, w').
Proof.
  apply (failed_connect_breaks_invariant json_loads "v2.1" hello20_text
           hello20 "v2.0" (world_of fresh [] []));
    [reflexivity | reflexivity | reflexivity | reflexivity | discriminate].
Defined.

(** The frame [[]] followed by the reply to [id1], both in one batch. *)
Lemma non_object_frame_ends_dispatch_loop_witness :
  let w := world_of awaiting [[array_text; reply1_text]] [] in
  handle_frame json_loads UUID_of_hex array_text w = (Raised AttributeError, w)
  /\ _message_handler json_loads UUID_of_hex [array_text; reply1_text] w
     = (Raised AttributeError, w)
  /\ exists w',
      sleep json_loads UUID_of_hex w = (Returned tt, w')
      /\ _listener_task (self w') = Some (Died AttributeError)
      /\ listening (self w') = false
      /\ _waiting_requests (self w') = _waiting_requests (self w)
      /\ _request_responses (self w') = _request_responses (self w)
      /\ journal w' = journal w.
Proof.
  apply (non_object_frame_ends_dispatch_loop json_loads UUID_of_hex
           array_text (JArr []) [reply1_text] []);
    [reflexivity | discriminate | reflexivity | reflexivity].
Defined.

Lemma id1_awaited : id1 ∈ _waiting_requests awaiting.
Proof. simpl. apply elem_of_singleton. reflexivity. Defined.

(** Frames that do not carry [id1]: a reply to [id2] and a frame that is
    not JSON. *)
Lemma others_quiet_for_id1 :
  quiet_for json_loads UUID_of_hex id1 [reply2_text; garbage_text].
Proof.
  intros f data Hf Hl.
  apply elem_of_cons in Hf as [-> | Hf].
  - injection Hl as <-. discriminate.
  - apply elem_of_cons in Hf as [-> | Hf]; [discriminate | inversion Hf].
Defined.


(** connect() on the connected sample handler, disconnect() on the fresh
    one. *)
Lemma connect_when_connected_witness :
  (exists c,
      _connection online = Some c
      /\ connect json_loads "v2.0" hello20_text (world_of online [] [])
         = (Raised (NotConnectedError
                      (Some ("Already connected to a server: " +:+ host c))),
            world_of online [] []))
  /\ disconnect (world_of fresh [] [])
     = (Raised (NotConnectedError None), world_of fresh [] []).
Proof.
  destruct (connect_when_connected json_loads "v2.0" hello20_text
              (world_of online [] []) eq_refl) as [H1 H2].
  split; [exact H1 | apply H2; reflexivity].
Defined.

(** The two lifecycle errors are of one class: the error of connect() on
    the connected sample handler and the error of disconnect() on the fresh
    one are both NotConnectedError. *)
Lemma lifecycle_errors_share_class :
  ~ lifecycle_errors_distinct json_loads.
Proof.
  intros H.
  apply (H "v2.0" hello20_text (world_of online [] []) (world_of fresh [] [])
           (NotConnectedError
              (Some "Already connected to a server: api.example"))
           (NotConnectedError None)
           (world_of online [] []) (world_of fresh [] []));
    reflexivity.
Qed.

(** reconnect(hostname="", token="", tls=False) on the fresh handler, which
    has TLS on. *)
Lemma reconnect_ignores_falsy_overrides_witness :
  let w' := snd (reconnect json_loads "v2.0" (Some "") (Some "") (Some false)
                   hello20_text (world_of fresh [] [])) in
  _tls (self w') = true
  /\ _token (self w') = None
  /\ _hostname (self w') = "api.example"
  /\ exists c,
      _connection (self w') = Some c
      /\ uri c = "wss://api.example"
      /\ exists rest, uri c = "wss://" +:+ rest.
Proof.
  apply (reconnect_ignores_falsy_overrides json_loads "v2.0" hello20_text
           (world_of fresh [] [])); reflexivity.
Defined.

(** [update_rescue] on the rescue without a case id, and on rescue 42 with
    the reply to [id1] arriving during the first tick. *)
Lemma update_rescue_contract_witness :
  let h21 := WebsocketAPIHandler21 json_loads json_dumps UUID_of_hex UUID_str in
  let w := world_of online [[reply1_text]] [id1] in
  update_rescue h21 rescue_new true w
  = (Raised (ValueError "Cannot send rescue without ID to the API"), w)
  /\ exists w',
      update_rescue h21 rescue42 false w = (Returned reply1, w')
      /\ option_map sent (_connection (self w'))
         = Some [json_dumps
                   (update_envelope (JInt 42) (JObj [("system", JStr "s")])
                      id1_str)].
Proof.
  intros h21 w. split.
  - destruct (update_rescue_contract json_loads json_dumps UUID_of_hex
                UUID_str rescue_new true w) as (H & _ & _ & H21 & _).
    unfold h21. rewrite H21. apply H. reflexivity.
  - destruct (update_rescue_contract json_loads json_dumps UUID_of_hex
                UUID_str rescue42 false w) as (_ & _ & H & H21 & _).
    unfold h21. rewrite H21.
    apply (H (JInt 42) id1 [] reply1_text reply1 []); reflexivity.
Defined.

(** Minting with [id1] pending and the draws [id1], [id2]: the first draw
    is rejected and [id2] is minted. *)
Lemma minted_request_id_is_unused_witness :
  let w := world_of awaiting [] [id1; id1; id2] in
  exists request_id w1,
    mint w = (Returned request_id, w1)
    /\ self w1 = self w
    /\ (request_id ∉ _waiting_requests (self w1))
    /\ (request_id ∉ dom (_request_responses (self w1))).
Proof.
  intros w.
  destruct (minted_request_id_is_unused UUID_str (JObj []) w) as [H1 H2].
  destruct H2 as (request_id & w1 & Hm).
  - exists id2. split; [| reflexivity].
    apply elem_of_cons. right. apply elem_of_cons. right.
    apply elem_of_cons. left. reflexivity.
  - exists request_id, w1. split; [exact Hm |].
    destruct (H1 request_id w1 Hm) as (Hs & Hp & Hr & _). auto.
Defined.

(** Frames that neither answer [id1] nor end the loop. *)
Lemma others_leave_id1_alone :
  undisturbed json_loads UUID_of_hex id1 [reply2_text; garbage_text].
Proof.
  split; [exact others_quiet_for_id1 |].
  intros f Hf.
  repeat (apply elem_of_cons in Hf as [-> | Hf]; [reflexivity |]).
  inversion Hf.
Defined.

Lemma garbage_leaves_id1_alone :
  undisturbed json_loads UUID_of_hex id1 [garbage_text].
Proof.
  split.
  - intros f data Hf Hl.
    apply elem_of_cons in Hf as [-> | Hf]; [discriminate | inversion Hf].
  - intros f Hf.
    apply elem_of_cons in Hf as [-> | Hf]; [reflexivity | inversion Hf].
Defined.



(** A wait of three ticks on [id1] while other frames arrive; during the
    tick after the timeout a frame that is not JSON, the reply to [id1]
    and the frame [[]] arrive. *)
Lemma late_reply_is_filed_after_timeout_witness :
  let w := world_of awaiting
             [[reply2_text]; []; [garbage_text];
              [garbage_text; reply1_text; array_text]; []] [] in
  exists w1,
    _retrieve_response json_loads UUID_of_hex UUID_str id1 3 w
    = (Raised (TimeoutError ("API took too long to respond to request "
                             +:+ UUID_str id1)), w1)
    /\ id1 ∈ _waiting_requests (self w1)
    /\ exists w2,
        sleep json_loads UUID_of_hex w1 = (Returned tt, w2)
        /\ _request_responses (self w2) !! id1 = Some reply1
        /\ (id1 ∉ _waiting_requests (self w2))
        /\ forall later,
            _request_responses
              (self (snd (_message_handler json_loads UUID_of_hex later w2)))
            !! id1 = Some reply1.
Proof.
  intros w.
  destruct (late_reply_is_filed_after_timeout json_loads UUID_of_hex UUID_str
              id1 reply1_text reply1 [[reply2_text]; []; [garbage_text]]
              [garbage_text] [array_text] [[]] 3 w id1_awaited)
    as (w1 & Ht & Hin & _ & Hlate).
  - split; [reflexivity |]. split; [reflexivity |].
    split; [exact others_leave_id1_alone |].
    split; [exact garbage_leaves_id1_alone |].
    repeat split.
  - reflexivity.
  - exists w1. auto.
Defined.

(** Frames whose request id cannot be looked up. *)
Example meta_not_an_object :
  request_id_of UUID_of_hex (JObj [("meta", JInt 5)]) = inl TypeError.
Proof. reflexivity. Qed.

Example request_id_not_a_string :
  request_id_of UUID_of_hex (JObj [("meta", JObj [("request_id", JInt 5)])])
  = inl AttributeError.
Proof. reflexivity. Qed.

Example request_id_not_a_uuid :
  request_id_of UUID_of_hex
    (JObj [("meta", JObj [("request_id", JStr "abc")])])
  = inl (ValueError "badly formed hexadecimal UUID string").
Proof. reflexivity. Qed.

(** The call of [update_rescue_contract_witness] when the frame [[]]
    arrives just before the reply: the listener ends on the first frame,
    the reply is never filed and the call runs into its timeout after 600
    ticks. *)
Example update_rescue_after_array_frame :
  let h20 := WebsocketAPIHandler20 json_loads json_dumps UUID_of_hex UUID_str in
  let r := update_rescue h20 rescue42 true
             (world_of online [[array_text; reply1_text]] [id1]) in
  fst r = Raised (TimeoutError ("API took too long to respond to request "
                                +:+ id1_str))
  /\ clock (snd r) = 600%nat
  /\ _listener_task (self (snd r)) = Some (Died AttributeError).
Proof. vm_compute. repeat split. Qed.

End Examples.
(** * The further properties on the sample data *)

Module FurtherExamples.

Import Sample.
Import MoreSamples.

Lemma id1_of_both : id1 ∈ _waiting_requests awaiting_both.
Proof. simpl. apply elem_of_union. left. by apply elem_of_singleton. Defined.

Lemma id2_of_both : id2 ∈ _waiting_requests awaiting_both.
Proof. simpl. apply elem_of_union. right. by apply elem_of_singleton. Defined.

Lemma id1_unused_online : taken online id1 = false.
Proof. reflexivity. Defined.

(** The 401 frame that names the pending request [id1]. *)
Lemma error_status_is_never_attributed_witness :
  let w := world_of awaiting [] [] in
  exists entry,
    (entry = TokenRequired \/ entry = NoPermission \/ entry = InternalError)
    /\ handle_frame json_loads UUID_of_hex denied1_text w
       = (Returned tt,
          {| self := awaiting; journal := [entry]; clock := 0;
             incoming := []; entropy := [] |}).
Proof.
  apply (error_status_is_never_attributed json_loads UUID_of_hex denied1_text
           denied1_members (JInt 401) (world_of awaiting [] []));
    reflexivity.
Defined.

(** The 404 frame that names the pending request [id1]. *)
Lemma other_status_is_filed_witness :
  let w := world_of awaiting [] [] in
  exists w',
    handle_frame json_loads UUID_of_hex missing1_text w = (Returned tt, w')
    /\ _request_responses (self w') !! id1 = Some (JObj missing1_members)
    /\ (id1 ∉ _waiting_requests (self w'))
    /\ journal w' = [].
Proof.
  apply (other_status_is_filed json_loads UUID_of_hex missing1_text
           missing1_members (JInt 404) id1 (world_of awaiting [] []));
    [reflexivity | reflexivity | reflexivity | reflexivity
    | exact Examples.id1_awaited].
Defined.

(** Two different replies to [id1], one after the other. *)
Lemma duplicate_reply_is_dropped_witness :
  let w := world_of awaiting [] [] in
  exists w',
    _message_handler json_loads UUID_of_hex [reply1_text; reply1_again_text] w
    = (Returned tt, w')
    /\ _request_responses (self w') !! id1 = Some reply1
    /\ (id1 ∉ _waiting_requests (self w'))
    /\ journal w' = [Unexpected id1].
Proof.
  apply (duplicate_reply_is_dropped json_loads UUID_of_hex id1 reply1_text
           reply1_again_text reply1 reply1_again (world_of awaiting [] []));
    [exact Examples.id1_awaited | reflexivity | reflexivity | reflexivity
    | reflexivity | reflexivity | reflexivity].
Defined.

(** The reply to [id2] arrives before the reply to [id1]. *)
Lemma replies_matched_by_identifier_witness :
  let w := world_of awaiting_both [] [] in
  exists w1 w2 w3,
    _message_handler json_loads UUID_of_hex [reply2_text; reply1_text] w
    = (Returned tt, w1)
    /\ _retrieve_response json_loads UUID_of_hex UUID_str id1 600 w1
       = (Returned reply1, w2)
    /\ _retrieve_response json_loads UUID_of_hex UUID_str id2 600 w2
       = (Returned reply2, w3)
    /\ _waiting_requests (self w3)
       = _waiting_requests (self w) ∖ {[id1; id2]}
    /\ _request_responses (self w3) !! id1 = None
    /\ _request_responses (self w3) !! id2 = None.
Proof.
  apply (replies_matched_by_identifier json_loads UUID_of_hex UUID_str
           id1 id2 reply1_text reply2_text reply1 reply2 600 600
           (world_of awaiting_both [] []));
    [discriminate | exact id1_of_both | exact id2_of_both
    | reflexivity | reflexivity | reflexivity
    | reflexivity | reflexivity | reflexivity | lia | lia].
Defined.

(** connect() of a v2.0 handler returns on the v2.0 hello, and a v2.1
    handler's connect() does not. *)
Lemma connect_returns_iff_witness :
  (exists w',
      connect json_loads "v2.0" hello20_text (world_of fresh [] [])
      = (Returned tt, w'))
  /\ ~ (exists w',
           connect json_loads "v2.1" hello20_text (world_of fresh [] [])
           = (Returned tt, w')).
Proof.
  split.
  - apply (connect_returns_iff json_loads "v2.0" hello20_text
             (world_of fresh [] []) eq_refl).
    exists hello20. split; [reflexivity | left; reflexivity].
  - intros H.
    apply (connect_returns_iff json_loads "v2.1" hello20_text
             (world_of fresh [] []) eq_refl) in H.
    destruct H as (cm & Hl & [Hv | [k Hv]]);
      injection Hl as <-; discriminate.
Defined.

(** The hello [[]]. *)
Lemma connect_hello_not_object_witness :
  exists w',
    connect json_loads "v2.0" array_text (world_of fresh [] [])
    = (Raised TypeError, w')
    /\ connected (self w') = true
    /\ _listener_task (self w') = None
    /\ journal w' = [].
Proof.
  apply (connect_hello_not_object json_loads "v2.0" array_text (JArr [])
           (world_of fresh [] []));
    [reflexivity | reflexivity | discriminate].
Defined.

Lemma connect_disconnect_round_trip_witness :
  let w := world_of fresh [] [] in
  exists w1 w2,
    connect json_loads "v2.0" hello20_text w = (Returned tt, w1)
    /\ disconnect w1 = (Returned tt, w2)
    /\ self w2 = fresh
    /\ disconnect w2 = (Raised (NotConnectedError None), w2).
Proof.
  apply (connect_disconnect_round_trip json_loads "v2.0" hello20_text hello20
           (world_of fresh [] [])); reflexivity.
Defined.

(** reconnect() with a new hostname on the handler a failed connect()
    left. *)
Lemma reconnect_cannot_recover_witness :
  reconnect json_loads "v2.0" (Some "other.example") None None hello20_text
    (world_of half_open [] [])
  = (Raised AttributeError, world_of half_open [] []).
Proof.
  apply (reconnect_cannot_recover json_loads "v2.0" (Some "other.example")
           None None hello20_text (world_of half_open [] []));
    reflexivity.
Defined.

(** reconnect() to another host, with a token and without TLS, while
    [id1] is pending. *)
Lemma reconnect_replaces_socket_witness :
  let w := world_of awaiting [] [] in
  exists w' c,
    reconnect json_loads "v2.0" (Some "other.example") (Some "s3cret")
      (Some false) hello20_text w = (Returned tt, w')
    /\ _connection (self w') = Some c
    /\ uri c = "wss://other.example/?bearer=s3cret"
    /\ open c = true
    /\ sent c = []
    /\ _listener_task (self w') = Some Running
    /\ _waiting_requests (self w') = {[id1]}
    /\ _request_responses (self w') = ∅
    /\ journal w' = [].
Proof.
  apply (reconnect_replaces_socket json_loads "v2.0" (Some "other.example")
           (Some "s3cret") (Some false) hello20_text hello20 Running
           (world_of awaiting [] [])); reflexivity.
Defined.

(** disconnect() while [id1] is pending, then a wait of five ticks during
    which the reply to [id1] arrives. *)
Lemma pending_request_outlives_disconnect_witness :
  let w := world_of awaiting [[reply1_text]] [] in
  exists w1 w2,
    disconnect w = (Returned tt, w1)
    /\ _waiting_requests (self w1) = {[id1]}
    /\ _retrieve_response json_loads UUID_of_hex UUID_str id1 5 w1
       = (Raised (TimeoutError ("API took too long to respond to request "
                                +:+ UUID_str id1)), w2)
    /\ self w2 = self w1
    /\ Z.of_nat (clock w2) = Z.of_nat (clock w1) + 5.
Proof.
  intros w.
  destruct (pending_request_outlives_disconnect json_loads UUID_of_hex
              UUID_str id1 5 w (snd (disconnect w)) eq_refl
              Examples.id1_awaited)
    as (Hp & _ & w2 & Hr & Hs & Hc); [lia |].
  exists (snd (disconnect w)), w2. repeat split; assumption.
Defined.

(** Two quiet ticks, then the reply to [id1]. *)
Lemma retrieve_returns_at_next_poll_witness :
  let w := world_of awaiting [[]; []; [reply1_text]; [reply2_text]] [] in
  exists w',
    _retrieve_response json_loads UUID_of_hex UUID_str id1 600 w
    = (Returned reply1, w')
    /\ clock w' = 3%nat
    /\ (id1 ∉ _waiting_requests (self w'))
    /\ _request_responses (self w') !! id1 = None
    /\ incoming w' = [[reply2_text]].
Proof.
  apply (retrieve_returns_at_next_poll json_loads UUID_of_hex UUID_str id1
           reply1_text reply1 [[reply2_text]] 2 600
           (world_of awaiting [[]; []; [reply1_text]; [reply2_text]] []));
    [exact Examples.id1_awaited | reflexivity | reflexivity | reflexivity
    | reflexivity | reflexivity | lia].
Defined.

(** The same arrivals with a budget of three ticks. *)
Lemma retrieve_misses_reply_at_deadline_witness :
  let w := world_of awaiting [[]; []; [reply1_text]; [reply2_text]] [] in
  exists w',
    _retrieve_response json_loads UUID_of_hex UUID_str id1 3 w
    = (Raised (TimeoutError ("API took too long to respond to request "
                             +:+ UUID_str id1)), w')
    /\ clock w' = 3%nat
    /\ (id1 ∉ _waiting_requests (self w'))
    /\ _request_responses (self w') !! id1 = Some reply1.
Proof.
  apply (retrieve_misses_reply_at_deadline json_loads UUID_of_hex UUID_str id1
           reply1_text reply1 [[reply2_text]] 2
           (world_of awaiting [[]; []; [reply1_text]; [reply2_text]] []));
    [exact Examples.id1_awaited | reflexivity | reflexivity | reflexivity
    | reflexivity | reflexivity].
Defined.

(** A call on the handler that never connected. *)
Lemma call_needs_connection_witness :
  call json_loads json_dumps UUID_of_hex UUID_str "rescues" "search"
    (Some [("status", JStr "open")]) None (world_of fresh [] [id1; id2])
  = (Raised (NotConnectedError None), world_of fresh [] [id2]).
Proof.
  apply (call_needs_connection json_loads json_dumps UUID_of_hex UUID_str
           "rescues" "search" (Some [("status", JStr "open")]) None id1 [id2]
           (world_of fresh [] [id1; id2])); reflexivity.
Defined.

(** A call whose parameters name an action and whose meta names a request
    id of its own. *)
Lemma call_sends_envelope_witness :
  let params := [("action", JStr "drop"); ("status", JStr "open")] in
  let meta := [("request_id", JStr "mine"); ("trace", JInt 7)] in
  let envelope := envelope_of "rescues" "search" params meta id1_str in
  Dict.get envelope "action" = Some (JArr [JStr "rescues"; JStr "search"])
  /\ Dict.get envelope "status" = Some (JStr "open")
  /\ exists m,
      Dict.get envelope "meta" = Some (JObj m)
      /\ Dict.get m "request_id" = Some (JStr id1_str)
      /\ Dict.get m "trace" = Some (JInt 7).
Proof.
  intros params meta envelope.
  destruct (call_sends_envelope json_loads json_dumps UUID_of_hex UUID_str
              "rescues" "search" (Some params) (Some meta) id1 []
              (world_of online [] [id1]) eq_refl eq_refl eq_refl
              id1_unused_online)
    as (_ & Ha & (m & Hm & Hid & Hother) & Hp).
  split; [exact Ha |]. split; [apply Hp; discriminate |].
  exists m. split; [exact Hm |]. split; [exact Hid |].
  apply Hother. discriminate.
Defined.

Lemma call_rejects_meta_that_is_no_dict_witness :
  call json_loads json_dumps UUID_of_hex UUID_str "rescues" "search"
    (Some [("meta", JStr "x")]) (Some [("trace", JInt 7)])
    (world_of online [] [id1])
  = (Raised AttributeError, world_of online [] [id1]).
Proof.
  apply (call_rejects_meta_that_is_no_dict json_loads json_dumps UUID_of_hex
           UUID_str "rescues" "search" (Some [("meta", JStr "x")])
           (Some [("trace", JInt 7)]) (JStr "x") (world_of online [] [id1]));
    [reflexivity | discriminate].
Defined.

(** A search call answered during the first tick, while [id2] is pending
    for another caller. *)
Lemma answered_call_leaves_tables_witness :
  let h := set_waiting_requests {[id2]} online in
  let w := world_of h [[reply1_text]] [id1] in
  exists w',
    call json_loads json_dumps UUID_of_hex UUID_str "rescues" "search"
      (Some [("status", JStr "open")]) None w = (Returned reply1, w')
    /\ _waiting_requests (self w') = {[id2]}
    /\ _request_responses (self w') = ∅
    /\ clock w' = 1%nat.
Proof.
  intros h w.
  exact (answered_call_leaves_tables json_loads json_dumps UUID_of_hex
           UUID_str "rescues" "search" (Some [("status", JStr "open")]) None
           id1 [] reply1_text reply1 [] w
           eq_refl eq_refl eq_refl eq_refl eq_refl eq_refl eq_refl eq_refl
           eq_refl).
Defined.

(** Minting with [id1] pending and the draws [id1], [id1], [id2], [id3]:
    two draws are rejected, [id2] is minted and [id3] is left. *)
Lemma mint_takes_first_unused_witness :
  mint (world_of awaiting [] [id1; id1; id2; id3])
  = (Returned id2, world_of awaiting [] [id3]).
Proof.
  destruct (mint_takes_first_unused
              (world_of awaiting [] [id1; id1; id2; id3])) as [_ H].
  apply (H [id1; id1] id2 [id3]); [reflexivity | | reflexivity].
  repeat constructor.
Defined.

(** Frames of the expected shapes in one batch: not JSON, a 401, a reply
    nobody waits for, a reply to [id1]. *)
Lemma well_shaped_frames_keep_loop_alive_witness :
  let frames := [garbage_text; status401_text; reply2_text; reply1_text] in
  let w := world_of awaiting [frames] [] in
  (exists w',
      _message_handler json_loads UUID_of_hex frames w = (Returned tt, w'))
  /\ exists w',
      sleep json_loads UUID_of_hex w = (Returned tt, w')
      /\ listening (self w') = true
      /\ incoming w' = [].
Proof.
  intros frames w.
  apply (well_shaped_frames_keep_loop_alive json_loads UUID_of_hex frames []
           w); [| reflexivity | reflexivity].
  intros f Hf.
  repeat (apply elem_of_cons in Hf as [-> | Hf]; [reflexivity |]).
  inversion Hf.
Defined.

(** A frame on which [json.loads] fails with RecursionError ends the
    loop: the listener task dies and the reply behind it is not read. *)
Example deep_frame_ends_loop :
  let w := world_of awaiting [[deep_text; reply1_text]] [] in
  handle_frame json_loads UUID_of_hex deep_text w = (Raised RecursionError, w)
  /\ _listener_task (self (snd (sleep json_loads UUID_of_hex w)))
     = Some (Died RecursionError)
  /\ _request_responses (self (snd (sleep json_loads UUID_of_hex w))) !! id1
     = None.
Proof. vm_compute. repeat split. Qed.

Lemma new_handler_refuses_witness :
  let w := world_of with_token [] [] in
  disconnect w = (Raised (NotConnectedError None), w)
  /\ _send_raw json_dumps (Text "ping") w = (Raised (NotConnectedError None), w)
  /\ connected (self w) = false.
Proof.
  intros w.
  destruct (new_handler_refuses json_loads json_dumps UUID_of_hex UUID_str
              "api.example" (Some "s3cret") false w eq_refl)
    as (H1 & H2 & _ & H4 & _).
  split; [exact H1 |]. split; [apply H2 | exact H4].
Defined.

(** A text frame and then a dict. *)
Lemma send_raw_keeps_order_witness :
  exists w',
    (_send_raw json_dumps (Text "ping");;
     _send_raw json_dumps (Payload (JObj [("n", JInt 1)])))
      (world_of online [] [])
    = (Returned tt, w')
    /\ option_map sent (_connection (self w'))
       = Some ["ping"; json_dumps (JObj [("n", JInt 1)])].
Proof.
  destruct (send_raw_keeps_order json_dumps (Text "ping")
              (Payload (JObj [("n", JInt 1)])) (world_of online [] [])
              eq_refl) as (w' & H1 & H2 & _).
  exists w'. split; [exact H1 | exact H2].
Defined.

(** connect() of the handler with a token and without TLS. *)
Lemma connect_dials_parameters_witness :
  exists c,
    _connection
      (self (snd (connect json_loads "v2.0" garbage_text
                    (world_of with_token [] [])))) = Some c
    /\ open c = true
    /\ sent c = []
    /\ uri c = "ws://api.example/?bearer=s3cret".
Proof.
  apply (connect_dials_parameters json_loads "v2.0" garbage_text
           (world_of with_token [] [])). reflexivity.
Defined.

(** The reply to [id1] handled while [id1] is pending and nothing is
    filed: the tables stay disjoint. *)
Lemma dispatch_conserves_identifiers_witness :
  let w' := snd (_message_handler json_loads UUID_of_hex
                   [reply2_text; reply1_text] (world_of awaiting [] [])) in
  _waiting_requests (self w') ∪ dom (_request_responses (self w')) = {[id1]} ∪ ∅
  /\ _waiting_requests (self w') ## dom (_request_responses (self w')).
Proof.
  destruct (dispatch_conserves_identifiers json_loads UUID_of_hex
              [reply2_text; reply1_text] (world_of awaiting [] []))
    as (H1 & _ & _ & H4).
  split.
  - etransitivity; [exact H1 |]. simpl. by rewrite dom_empty_L.
  - apply H4. simpl. rewrite dom_empty_L. apply disjoint_empty_r.
Defined.

(** The four classes constructed with an empty message, and with one. *)
Lemma exception_message_fallback_witness :
  exn_message (ForbiddenError (Some "")) = Some "(403) Insufficient permissions"
  /\ exn_message (InternalAPIError (Some "db down")) = Some "db down".
Proof.
  split.
  - destruct (exception_message_fallback (Some "")) as [H _].
    destruct (H (or_intror eq_refl)) as (_ & _ & H3 & _). exact H3.
  - destruct (exception_message_fallback (Some "db down")) as (_ & H & _).
    destruct (H "db down" eq_refl) as (_ & _ & _ & H4); [discriminate |].
    exact H4.
Defined.

End FurtherExamples.
